(** * Annovate: the sidecar record store of [annovate.py]

    A shallow embedding of [MetaFile] (load, [add_information], [write],
    [get], [files]) and of the [get] and [list] branches of [main], with
    the properties of the record format proved over it.

    Python values are modelled as follows.
    - [str] is [string]; the characters that matter are ['@'], ['='],
      line feed and carriage return.
    - [dict] is an association list in insertion order with unique keys
      ([Dict]): iteration order is observable through [files] and through
      the order in which [write] emits property lines.
    - Exceptions are values of [exn]; a computation that touches the file
      system or the store runs in the state-and-exception monad [M], which
      keeps the state reached when the exception was raised.
    - [datetime] is an interface ([DateTime]): the code only calls
      [isoformat] and [fromisoformat] and never compares two timestamps.
    - The record file is text; reading is in universal-newline mode, and
      writing leaves line feeds as they are (POSIX). *)

From Stdlib Require Import String Ascii List Bool Arith NArith DecimalString Lia.
Import ListNotations.
Local Open Scope string_scope.

(** ** Characters and strings *)

Definition LF : ascii := "010"%char.
Definition CR : ascii := "013"%char.
Definition NL : string := String LF "".

Module Str.

(** [s.startswith(c)] for a one-character prefix. *)
Definition startswith (c : ascii) (s : string) : bool :=
  match s with
  | String a _ => (a =? c)%char
  | EmptyString => false
  end.

(** [s[1:]] *)
Definition drop1 (s : string) : string :=
  match s with
  | String _ r => r
  | EmptyString => EmptyString
  end.

(** [s.rstrip(c)]: every trailing occurrence of [c] is removed. *)
Fixpoint rstrip (c : ascii) (s : string) : string :=
  match s with
  | EmptyString => EmptyString
  | String a r =>
      match rstrip c r with
      | EmptyString => if (a =? c)%char then EmptyString else String a EmptyString
      | r' => String a r'
      end
  end.

(** [s.split(c)]: one more part than there are occurrences of [c]. *)
Fixpoint split (c : ascii) (s : string) : list string :=
  match s with
  | EmptyString => [EmptyString]
  | String a r =>
      if (a =? c)%char then EmptyString :: split c r
      else match split c r with
           | p :: ps => String a p :: ps
           | [] => [String a EmptyString]
           end
  end.

(** [s.split(c, maxsplit=1)]: cut at the first [c] only. *)
Fixpoint split1 (c : ascii) (s : string) : list string :=
  match s with
  | EmptyString => [EmptyString]
  | String a r =>
      if (a =? c)%char then [EmptyString; r]
      else match split1 c r with
           | p :: ps => String a p :: ps
           | [] => [String a EmptyString]
           end
  end.

(** [c in s] *)
Fixpoint contains (c : ascii) (s : string) : bool :=
  match s with
  | EmptyString => false
  | String a r => (a =? c)%char || contains c r
  end.

(** The last character of [s] is [c]. *)
Fixpoint endswith (c : ascii) (s : string) : bool :=
  match s with
  | EmptyString => false
  | String a EmptyString => (a =? c)%char
  | String _ r => endswith c r
  end.

(** The lines of a text file opened for reading with the default
    [newline=None]: a line ends at LF, at CR LF or at a lone CR, each
    handed to the program as a single LF; a last line without a line
    end is returned as it is.  [cur] is the line read so far and
    [after_cr] tells that the previous character was a CR, whose line
    has been closed already. *)
Fixpoint lines_from (cur : string) (after_cr : bool) (s : string) : list string :=
  match s with
  | EmptyString =>
      match cur with
      | EmptyString => []
      | _ => [cur]
      end
  | String a r =>
      if (a =? LF)%char then
        if after_cr then lines_from "" false r
        else (cur ++ NL) :: lines_from "" false r
      else if (a =? CR)%char then (cur ++ NL) :: lines_from "" true r
      else lines_from (cur ++ String a "") false r
  end.

Definition readlines (s : string) : list string := lines_from "" false s.

(** Neither LF nor CR occurs in [s]. *)
Definition one_line (s : string) : bool :=
  negb (contains LF s) && negb (contains CR s).

End Str.

(** ** Insertion-ordered dictionaries with [str] keys *)

Module Dict.

Definition t (V : Type) : Type := list (string * V).

Section Ops.
Context {V : Type}.

(** [d.get(k)] *)
Fixpoint get (k : string) (d : t V) : option V :=
  match d with
  | [] => None
  | (k', v) :: r => if (k' =? k)%string then Some v else get k r
  end.

(** [d[k] = v]: an existing key keeps its position, a new key goes
    last. *)
Fixpoint set (k : string) (v : V) (d : t V) : t V :=
  match d with
  | [] => [(k, v)]
  | (k', v') :: r =>
      if (k' =? k)%string then (k', v) :: r else (k', v') :: set k v r
  end.

(** The dictionary after [d.setdefault(k, v)]. *)
Definition setdefault (k : string) (v : V) (d : t V) : t V :=
  match get k d with
  | Some _ => d
  | None => (d ++ [(k, v)])%list
  end.

(** A mutation [f] of the object stored under [k], seen through
    [d]: how [x = d.setdefault(k, {}); x[a] = b] changes [d]. *)
Fixpoint update (k : string) (f : V -> V) (d : t V) : t V :=
  match d with
  | [] => []
  | (k', v) :: r =>
      if (k' =? k)%string then (k', f v) :: r else (k', v) :: update k f r
  end.

(** [list(d)] *)
Definition keys (d : t V) : list string := map fst d.

End Ops.

End Dict.

(** ** Exceptions and the state-and-exception monad *)

Inductive exn : Type :=
| ValueError (msg : string)
| OSError (msg : string).

Definition M (S A : Type) : Type := S -> (exn + A) * S.

Definition ret {S A : Type} (a : A) : M S A := fun s => (inr a, s).

Definition raise {S A : Type} (e : exn) : M S A := fun s => (inl e, s).

Definition bind {S A B : Type} (m : M S A) (f : A -> M S B) : M S B :=
  fun s =>
    match m s with
    | (inr a, s') => f a s'
    | (inl e, s') => (inl e, s')
    end.

Declare Scope py_scope.
Delimit Scope py_scope with py.
Notation "x <- m ;; k" := (bind m (fun x => k))
  (at level 61, m at next level, right associativity) : py_scope.
Notation "m ;; k" := (bind m (fun _ => k))
  (at level 61, right associativity) : py_scope.
Local Open Scope py_scope.

(** [for x in l: body(x)] *)
Fixpoint for_each {S A : Type} (l : list A) (body : A -> M S unit) : M S unit :=
  match l with
  | [] => ret tt
  | x :: r => body x ;; for_each r body
  end.

(** A computation that raises or returns without touching the state. *)
Definition lift {S A : Type} (r : exn + A) : M S A := fun s => (r, s).

(** [a, b = parts]: unpacking into exactly two names. *)
Definition unpack2 (parts : list string) : exn + (string * string) :=
  match parts with
  | [a; b] => inr (a, b)
  | [] => inl (ValueError "not enough values to unpack (expected 2, got 0)")
  | [_] => inl (ValueError "not enough values to unpack (expected 2, got 1)")
  | _ => inl (ValueError "too many values to unpack (expected 2)")
  end.

(** ** The file system, as far as one path is concerned *)

Inductive node : Type :=
| Missing (creatable : bool)
| Directory
| Regular (content : string) (readable writable : bool).

Definition FS : Type := string -> node.

Definition fs_update (p : string) (n : node) (fs : FS) : FS :=
  fun q => if (q =? p)%string then n else fs q.

(** [path.exists()] *)
Definition path_exists (p : string) : M FS bool :=
  fun fs =>
    (inr match fs p with Missing _ => false | _ => true end, fs).

(** [with open(path) as f: for line in f], all lines at once. *)
Definition open_read (p : string) : M FS (list string) :=
  fun fs =>
    match fs p with
    | Regular c true _ => (inr (Str.readlines c), fs)
    | Regular _ false _ => (inl (OSError "Permission denied"), fs)
    | Directory => (inl (OSError "Is a directory"), fs)
    | Missing _ => (inl (OSError "No such file or directory"), fs)
    end.

(** [open(path, 'a')]: creates the file when it is missing and can be
    created. *)
Definition open_append (p : string) : M FS unit :=
  fun fs =>
    match fs p with
    | Regular _ _ true => (inr tt, fs)
    | Regular _ _ false => (inl (OSError "Permission denied"), fs)
    | Directory => (inl (OSError "Is a directory"), fs)
    | Missing true => (inr tt, fs_update p (Regular "" true true) fs)
    | Missing false => (inl (OSError "No such file or directory"), fs)
    end.

(** [out.write(s)] on a file opened for append. *)
Definition file_write (p : string) (s : string) : M FS unit :=
  fun fs =>
    match fs p with
    | Regular c r w => (inr tt, fs_update p (Regular (c ++ s) r w) fs)
    | _ => (inr tt, fs)
    end.

(** ** Vocabulary of the statements *)

(** Concatenation of a list of strings. *)
Fixpoint join (l : list string) : string :=
  match l with
  | [] => ""
  | x :: r => x ++ join r
  end.

(** A record is newline terminated when it is empty or ends in LF: every
    record the program itself wrote is. *)
Definition newline_terminated (c : string) : bool :=
  match c with
  | EmptyString => true
  | _ => Str.endswith LF c
  end.

(** Scanning names from left to right, keeping each at the place of its
    first occurrence. *)
Definition note (seen : list string) (x : string) : list string :=
  if existsb (String.eqb x) seen then seen else (seen ++ [x])%list.

Definition first_seen (names : list string) : list string :=
  fold_left note names [].

(** The object names of the header lines of a record, in file order. *)
Definition header_name (line : string) : list string :=
  if Str.startswith "@" line then
    match Str.split "@" (Str.rstrip LF (Str.drop1 line)) with
    | [file_key; _] => [file_key]
    | _ => []
    end
  else [].

Definition header_names (lines : list string) : list string :=
  flat_map header_name lines.

(** A key and a value that [write] puts on one line which load reads
    back as that key and that value. *)
Definition property_ok (kv : string * string) : bool :=
  Str.one_line (fst kv) && negb (Str.contains "=" (fst kv))
  && negb (Str.startswith "@" (fst kv)) && Str.one_line (snd kv).

(** There is a regular file at [p]. *)
Definition is_regular (p : string) (fs : FS) : Prop :=
  exists c r w, fs p = Regular c r w.

(** [fs'] is [fs] with [text] appended to the regular file at [p]. *)
Definition appended (p text : string) (fs fs' : FS) : Prop :=
  (exists c r w, fs p = Regular c r w /\ fs' p = Regular (c ++ text) r w)
  /\ forall q, q <> p -> fs' q = fs q.

(** ** Timestamps

    What the program asks of [datetime]: a text form and its parser.
    [fromisoformat] returning [None] stands for the [ValueError] Python
    raises on a string it does not accept. *)

Class DateTime (T : Type) : Type := {
  isoformat : T -> string;
  fromisoformat : string -> option T
}.

(** ** The record store *)

Section Annovate.

Context {datetime : Type} {DT : DateTime datetime}.

(** [class MetaInformation] *)
Record MetaInformation : Type := {
  filename : string;
  time : datetime;
  properties : Dict.t string
}.

(** [class DatedValue]; its [time] field is [assigned] here. *)
Record DatedValue : Type := {
  value : string;
  assigned : datetime
}.

(** The attributes of a [MetaFile] object. *)
Record MetaFile : Type := {
  path : string;
  data : Dict.t (Dict.t DatedValue);
  new_information : list MetaInformation
}.

(** The local variables of the loading loop.  [current_dict] is the
    very dictionary stored in [data] under the last header's name, so
    it is kept as that name and assignments to it go through
    [Dict.update]. *)
Record loop_vars : Type := {
  l_data : Dict.t (Dict.t DatedValue);
  current_dict : option string;
  file_time : option datetime
}.

Definition loop_start : loop_vars :=
  {| l_data := []; current_dict := None; file_time := None |}.

(** One iteration of [for line in f] in [MetaFile.__init__]. *)
Definition load_line (line : string) (st : loop_vars) : exn + loop_vars :=
  if Str.startswith "@" line then
    match unpack2 (Str.split "@" (Str.rstrip LF (Str.drop1 line))) with
    | inl e => inl e
    | inr (file_key, time_str) =>
        let data' := Dict.setdefault file_key [] (l_data st) in
        match fromisoformat time_str with
        | None => inl (ValueError "Invalid isoformat string")
        | Some t =>
            inr {| l_data := data';
                   current_dict := Some file_key;
                   file_time := Some t |}
        end
    end
  else
    match unpack2 (Str.split1 "=" (Str.rstrip LF line)) with
    | inl e => inl e
    | inr (key, val) =>
        match current_dict st, file_time st with
        | Some file_key, Some t =>
            inr {| l_data :=
                     Dict.update file_key
                       (Dict.set key {| value := val; assigned := t |})
                       (l_data st);
                   current_dict := current_dict st;
                   file_time := file_time st |}
        | _, _ => inl (ValueError "Meta file is not starting with a @")
        end
    end.

Fixpoint load_lines (lines : list string) (st : loop_vars) : exn + loop_vars :=
  match lines with
  | [] => inr st
  | line :: rest =>
      match load_line line st with
      | inl e => inl e
      | inr st' => load_lines rest st'
      end
  end.

(** [MetaFile.__init__] *)
Definition MetaFile_init (p : string) : M FS MetaFile :=
  present <- path_exists p ;;
  d <- (if present : bool then
          lines <- open_read p ;;
          st <- lift (load_lines lines loop_start) ;;
          ret (l_data st)
        else ret []) ;;
  ret {| path := p; data := d; new_information := [] |}.

(** *** Methods; the state is the object together with the file system *)

Definition Self : Type := (MetaFile * FS)%type.

Definition self : M Self MetaFile := fun s => (inr (fst s), s).

Definition set_new_information (l : list MetaInformation) : M Self unit :=
  fun s =>
    (inr tt,
     ({| path := path (fst s); data := data (fst s); new_information := l |},
      snd s)).

Definition io {A : Type} (m : M FS A) : M Self A :=
  fun s => let (r, fs') := m (snd s) in (r, (fst s, fs')).

(** [f'@{info.filename}@{time_str}\n'] *)
Definition header_line (info : MetaInformation) : string :=
  "@" ++ filename info ++ "@" ++ isoformat (time info) ++ NL.

(** [f'{key}={value}\n'] *)
Definition property_line (kv : string * string) : string :=
  fst kv ++ "=" ++ snd kv ++ NL.

(** [MetaFile.write] *)
Definition write : M Self unit :=
  me <- self ;;
  (match new_information me with
   | _ :: _ =>
       io (open_append (path me)) ;;
       for_each (new_information me) (fun info =>
         io (file_write (path me) (header_line info)) ;;
         for_each (properties info) (fun kv =>
           io (file_write (path me) (property_line kv))))
   | [] => ret tt
   end) ;;
  set_new_information [].

(** The effect of one batch on [data]: the body of [add_information]
    after the append. *)
Definition merge (info : MetaInformation)
    (d : Dict.t (Dict.t DatedValue)) : Dict.t (Dict.t DatedValue) :=
  fold_left
    (fun d' kv =>
       Dict.update (filename info)
         (Dict.set (fst kv) {| value := snd kv; assigned := time info |}) d')
    (properties info)
    (Dict.setdefault (filename info) [] d).

(** [MetaFile.add_information] *)
Definition add_information (info : MetaInformation) (me : MetaFile) : MetaFile :=
  {| path := path me;
     data := merge info (data me);
     new_information := (new_information me ++ [info])%list |}.

(** [MetaFile.get] *)
Definition get (file : string) (key : string) (me : MetaFile) : option DatedValue :=
  match Dict.get file (data me) with
  | Some file_data => Dict.get key file_data
  | None => None
  end.

(** [MetaFile.files] *)
Definition files (me : MetaFile) : list string := Dict.keys (data me).

(** *** The [get] and [list] branches of [main]

    [meta_file_path] is the result of [derive_meta_file_path] and
    [name] is [obj.name].  [stdout] collects the objects handed to
    [print], one per call. *)

Inductive pyobj : Type :=
| PStr (s : string)
| PDatedValue (d : DatedValue).

Record World : Type := {
  fs : FS;
  stdout : list pyobj
}.

Definition print (o : pyobj) : M World unit :=
  fun w => (inr tt, {| fs := fs w; stdout := (stdout w ++ [o])%list |}).

Definition on_fs {A : Type} (m : M FS A) : M World A :=
  fun w => let (r, fs') := m (fs w) in (r, {| fs := fs'; stdout := stdout w |}).

(** [meta.get(obj.name, item) or args.default]: a [DatedValue] is
    always true, [None] is false. *)
Definition get_or_default (r : option DatedValue) (default : string) : pyobj :=
  match r with
  | Some d => PDatedValue d
  | None => PStr default
  end.

(** [args.action == 'get'] *)
Definition main_get (meta_file_path name : string) (items : list string)
    (default : string) : M World unit :=
  meta <- on_fs (MetaFile_init meta_file_path) ;;
  for_each items (fun item =>
    print (get_or_default (get name item meta) default)).

Definition TAB : string := String "009"%char "".

(** The pair that one iteration of the [list] loop prints. *)
Definition list_entry (meta : MetaFile) (default : string) (file : string)
    : string * string :=
  let description := get file "description" meta in
  (file, match description with
         | None => default
         | Some d => value d
         end).

(** [args.action == 'list'] *)
Definition main_list (meta_file_path : string) (default : string) : M World unit :=
  meta <- on_fs (MetaFile_init meta_file_path) ;;
  for_each (files meta) (fun file =>
    let (f, v) := list_entry meta default file in
    print (PStr (f ++ TAB ++ v))).

(** *** Vocabulary of the statements *)

(** What [write] appends for one batch and for a list of batches. *)
Definition render_batch (info : MetaInformation) : string :=
  header_line info ++ join (map property_line (properties info)).

Definition render (infos : list MetaInformation) : string :=
  join (map render_batch infos).

(** A batch whose lines load reads back as they were meant. *)
Definition well_formed (info : MetaInformation) : Prop :=
  Str.one_line (filename info) = true
  /\ Str.contains "@" (filename info) = false
  /\ Str.one_line (isoformat (time info)) = true
  /\ Str.contains "@" (isoformat (time info)) = false
  /\ fromisoformat (isoformat (time info)) = Some (time info)
  /\ forallb property_ok (properties info) = true.

(** Several [add_information] calls in a row. *)
Definition add_all (infos : list MetaInformation) (me : MetaFile) : MetaFile :=
  fold_left (fun m info => add_information info m) infos me.

(** Batches merged one after the other into [d]. *)
Definition replay (infos : list MetaInformation)
    (d : Dict.t (Dict.t DatedValue)) : Dict.t (Dict.t DatedValue) :=
  fold_left (fun d' info => merge info d') infos d.

(** [entries[file][key]], when both are there. *)
Definition entry (file key : string) (d : Dict.t (Dict.t DatedValue))
    : option DatedValue :=
  match Dict.get file d with
  | Some file_data => Dict.get key file_data
  | None => None
  end.

(** The lines of the record at [p]; none when there is no record. *)
Definition record_lines (p : string) (fs : FS) : list string :=
  match fs p with
  | Regular c _ _ => Str.readlines c
  | _ => []
  end.

(** What the [list] loop prints for [file]. *)
Definition list_line (meta : MetaFile) (default : string) (file : string) : pyobj :=
  PStr (file ++ TAB
        ++ match get file "description" meta with
           | Some d => value d
           | None => default
           end).

(** The assignments of one batch, applied to the object's own
    dictionary. *)
Definition assign (t : datetime) (props : Dict.t string)
    (file_data : Dict.t DatedValue) : Dict.t DatedValue :=
  fold_left
    (fun fd kv => Dict.set (fst kv) {| value := snd kv; assigned := t |} fd)
    props file_data.

(** The store after a [write] that did not raise. *)
Definition flushed (me : MetaFile) : MetaFile :=
  {| path := path me; data := data me; new_information := [] |}.

(** A store as [MetaFile.__init__] leaves it when there is no record. *)
Definition fresh (p : string) : MetaFile :=
  {| path := p; data := []; new_information := [] |}.

End Annovate.

Arguments MetaInformation datetime : clear implicits.
Arguments DatedValue datetime : clear implicits.
Arguments MetaFile datetime : clear implicits.
Arguments loop_vars datetime : clear implicits.
Arguments pyobj datetime : clear implicits.
Arguments World datetime : clear implicits.

(** ** The rest of [main] and the record location *)

Section Program.

Context {datetime : Type} {DT : DateTime datetime}.

(** The decimal text of a number, as [str(i)] gives it. *)
Definition decimal (n : nat) : string :=
  NilEmpty.string_of_uint (Nat.to_uint n).

(** [dict(attr_spec.split('=', maxsplit=1) for attr_spec in args.items)]:
    the elements are taken one by one, each must have two parts, and a
    key met again keeps its place and takes the new value.  [i] is the
    index of the next element and [d] the dictionary built so far. *)
Fixpoint dict_of_items (i : nat) (items : list string) (d : Dict.t string)
    : exn + Dict.t string :=
  match items with
  | [] => inr d
  | attr_spec :: rest =>
      match Str.split1 "=" attr_spec with
      | [key; val] => dict_of_items (S i) rest (Dict.set key val d)
      | parts =>
          inl (ValueError
                 ("dictionary update sequence element #" ++ decimal i
                  ++ " has length " ++ decimal (List.length parts)
                  ++ "; 2 is required"))
      end
  end.

(** A method call on the local object [meta]; the object is dropped
    when [main] returns. *)
Definition call {A : Type} (meta : MetaFile datetime) (method : M (Self (datetime := datetime)) A)
    : M (World datetime) A :=
  fun w =>
    let (r, s) := method (meta, fs w) in
    (r, {| fs := snd s; stdout := stdout w |}).

(** [args.action == 'set']; [now] is what [datetime.now()] returns. *)
Definition main_set (meta_file_path name : string) (items : list string)
    (now : datetime) : M (World datetime) unit :=
  meta <- on_fs (MetaFile_init meta_file_path) ;;
  properties <- lift (dict_of_items 0 items []) ;;
  call (add_information
          {| filename := name; time := now; properties := properties |} meta)
       write.

(** The parsed command line, without [object], which only serves to
    find [meta_file_path] and [name]. *)
Record Namespace : Type := {
  action : string;
  items : list string;
  default : string
}.

(** The standard streams and the file system of the process. *)
Record Process : Type := {
  world : World datetime;
  stderr : list string
}.

(** How [main] ends when it raises no error: it returns, or [exit]
    raises [SystemExit] with a status. *)
Inductive status : Type :=
| Returned
| SystemExit (code : nat).

Definition in_world {A : Type} (m : M (World datetime) A) : M Process A :=
  fun pr =>
    let (r, w) := m (world pr) in
    (r, {| world := w; stderr := stderr pr |}).

(** [stderr.write(s)] *)
Definition stderr_write (s : string) : M Process unit :=
  fun pr =>
    (inr tt, {| world := world pr; stderr := (stderr pr ++ [s])%list |}).

(** [main], after [meta_file_path = derive_meta_file_path(obj)] and
    with [name = obj.name]. *)
Definition main (meta_file_path name : string) (now : datetime)
    (args : Namespace) : M Process status :=
  if (action args =? "get")%string then
    in_world (main_get meta_file_path name (items args) (default args)) ;;
    ret Returned
  else if (action args =? "set")%string then
    in_world (main_set meta_file_path name (items args) now) ;;
    ret Returned
  else if (action args =? "list")%string then
    in_world (main_list meta_file_path (default args)) ;;
    ret Returned
  else
    stderr_write ("Unsupported action: " ++ action args ++ NL) ;;
    ret (SystemExit 2).

(** Unique object names, and unique keys for each object: what makes
    an association list stand for a [dict] of [dict]s. *)
Definition well_keyed (d : Dict.t (Dict.t (DatedValue datetime))) : Prop :=
  NoDup (Dict.keys d) /\ Forall (fun e => NoDup (Dict.keys (snd e))) d.

End Program.

(** ** The record location

    A resolved path is the list of its components below the root.
    [resolve] and [is_dir] look at the file system (working directory,
    symbolic links, what is a directory), so they are parameters. *)

Section Location.

Variable resolve : string -> list string.
Variable is_dir : list string -> bool.

Definition META_FILE_NAME : string := ".annovate".

(** [path.parent]; the root is its own parent. *)
Definition parent (path : list string) : list string := removelast path.

(** [path / name] *)
Definition child (path : list string) (name : string) : list string :=
  (path ++ [name])%list.

(** [derive_meta_file_path] *)
Definition derive_meta_file_path (obj_path : string) : list string :=
  let path := resolve obj_path in
  if is_dir path then child path META_FILE_NAME
  else child (parent path) META_FILE_NAME.

End Location.

(** ** Naive timestamps

    An instance of [DateTime]: timestamps without a time zone, printed
    as [YYYY-MM-DDTHH:MM:SS] with [.ffffff] added when the microseconds
    are not zero, which is what [datetime.isoformat] prints for them.
    The parser accepts those two shapes.  [ltb] is the order Python's
    [<] gives two such timestamps. *)

Module Naive.

Record datetime : Type := {
  year : N;
  month : N;
  day : N;
  hour : N;
  minute : N;
  second : N;
  microsecond : N
}.

Definition digit (n : N) : ascii := ascii_of_N (48 + n mod 10).

Fixpoint zpad (w : nat) (n : N) : string :=
  match w with
  | O => ""
  | S w' => zpad w' (n / 10) ++ String (digit n) ""
  end.

Definition isoformat (t : datetime) : string :=
  zpad 4 (year t) ++ "-" ++ zpad 2 (month t) ++ "-" ++ zpad 2 (day t)
  ++ "T" ++ zpad 2 (hour t) ++ ":" ++ zpad 2 (minute t) ++ ":"
  ++ zpad 2 (second t)
  ++ (if (microsecond t =? 0)%N then ""
      else "." ++ zpad 6 (microsecond t)).

Definition digit_value (c : ascii) : option N :=
  let n := N_of_ascii c in
  if ((48 <=? n) && (n <=? 57))%N then Some (n - 48)%N else None.

(** Exactly [w] decimal digits. *)
Fixpoint number (w : nat) (acc : N) (s : string) : option (N * string) :=
  match w with
  | O => Some (acc, s)
  | S w' =>
      match s with
      | String c r =>
          match digit_value c with
          | Some d => number w' (10 * acc + d)%N r
          | None => None
          end
      | EmptyString => None
      end
  end.

Definition expect (c : ascii) (s : string) : option string :=
  match s with
  | String a r => if (a =? c)%char then Some r else None
  | EmptyString => None
  end.

Definition leap (y : N) : bool :=
  ((y mod 4 =? 0)%N && negb (y mod 100 =? 0)%N) || (y mod 400 =? 0)%N.

Definition days_in_month (y m : N) : N :=
  if (m =? 2)%N then (if leap y then 29 else 28)
  else if ((m =? 4) || (m =? 6) || (m =? 9) || (m =? 11))%N then 30
  else 31.

Definition valid (t : datetime) : bool :=
  ((1 <=? year t) && (year t <=? 9999)
   && (1 <=? month t) && (month t <=? 12)
   && (1 <=? day t) && (day t <=? days_in_month (year t) (month t))
   && (hour t <? 24) && (minute t <? 60) && (second t <? 60)
   && (microsecond t <? 1000000))%N.

Definition opt_bind {A B : Type} (o : option A) (f : A -> option B) : option B :=
  match o with
  | Some a => f a
  | None => None
  end.

Definition fromisoformat (s : string) : option datetime :=
  opt_bind (number 4 0 s) (fun '(y, s) =>
  opt_bind (expect "-" s) (fun s =>
  opt_bind (number 2 0 s) (fun '(mo, s) =>
  opt_bind (expect "-" s) (fun s =>
  opt_bind (number 2 0 s) (fun '(d, s) =>
  opt_bind (expect "T" s) (fun s =>
  opt_bind (number 2 0 s) (fun '(h, s) =>
  opt_bind (expect ":" s) (fun s =>
  opt_bind (number 2 0 s) (fun '(mi, s) =>
  opt_bind (expect ":" s) (fun s =>
  opt_bind (number 2 0 s) (fun '(se, s) =>
  opt_bind
    (match s with
     | EmptyString => Some 0%N
     | _ =>
         opt_bind (expect "." s) (fun s =>
         opt_bind (number 6 0 s) (fun '(us, s) =>
         match s with
         | EmptyString => Some us
         | _ => None
         end))
     end) (fun us =>
  let t := {| year := y; month := mo; day := d; hour := h;
              minute := mi; second := se; microsecond := us |} in
  if valid t then Some t else None)))))))))))).

Fixpoint lex_ltb (a b : list N) : bool :=
  match a, b with
  | x :: a', y :: b' => (x <? y)%N || ((x =? y)%N && lex_ltb a' b')
  | _, _ => false
  end.

Definition fields (t : datetime) : list N :=
  [year t; month t; day t; hour t; minute t; second t; microsecond t].

(** [a < b] *)
Definition ltb (a b : datetime) : bool := lex_ltb (fields a) (fields b).

#[global] Instance naive_DateTime : DateTime datetime :=
  Build_DateTime datetime isoformat fromisoformat.

(** Timestamps and a file system for running the model. *)

Definition noon : datetime :=
  {| year := 2021; month := 5; day := 1; hour := 12; minute := 0;
     second := 0; microsecond := 0 |}.

Definition evening : datetime :=
  {| year := 2021; month := 5; day := 1; hour := 18; minute := 30;
     second := 15; microsecond := 250000 |}.

Definition annovate_path : string := "/data/.annovate".

(** Nothing exists; files can be created everywhere. *)
Definition empty_fs : FS := fun _ => Missing true.

Definition with_file (content : string) : FS :=
  fs_update annovate_path (Regular content true true) empty_fs.

End Naive.


(** ** Sample batches and records *)

Module Sample.

Import Naive.

Definition early : MetaInformation datetime :=
  {| filename := "plot.png"; time := noon;
     properties := [("infra_correction", "8.2")] |}.

Definition late : MetaInformation datetime :=
  {| filename := "plot.png"; time := evening;
     properties := [("infra_correction", "9.0")] |}.

(** A value with ['='] in it. *)
Definition described : MetaInformation datetime :=
  {| filename := "results.csv"; time := noon;
     properties := [("description", "Cleaned up data");
                    ("origin", "./run --alpha=8.2")] |}.

Definition bare : MetaInformation datetime :=
  {| filename := "notes.txt"; time := evening; properties := [] |}.

(** A value of two lines. *)
Definition two_lines : MetaInformation datetime :=
  {| filename := "plot.png"; time := noon;
     properties := [("origin", "first" ++ NL ++ "second=2")] |}.

(** A record with three batches for two objects. *)
Definition record_text : string :=
  "@plot.png@2021-05-01T12:00:00" ++ NL
  ++ "infra_correction=8.2" ++ NL
  ++ "@results.csv@2021-05-01T12:00:00" ++ NL
  ++ "description=Cleaned up data" ++ NL
  ++ "@plot.png@2021-05-01T18:30:15.250000" ++ NL
  ++ "infra_correction=9.0" ++ NL.

(** A record that starts with a property line. *)
Definition orphan_text : string :=
  "description=Cleaned up data" ++ NL
  ++ "@results.csv@2021-05-01T12:00:00" ++ NL.

(** A record with a blank line after its first batch. *)
Definition blank_line_text : string :=
  "@plot.png@2021-05-01T12:00:00" ++ NL
  ++ "infra_correction=8.2" ++ NL
  ++ NL
  ++ "@results.csv@2021-05-01T12:00:00" ++ NL.

(** The store [MetaFile.__init__] builds from [record_text]. *)
Definition loaded : MetaFile datetime :=
  {| path := annovate_path;
     data := [("plot.png",
               [("infra_correction", {| value := "9.0"; assigned := evening |})]);
              ("results.csv",
               [("description",
                 {| value := "Cleaned up data"; assigned := noon |})])];
     new_information := [] |}.

(** The later timestamp added first, the earlier one second. *)
Definition late_then_early : MetaFile datetime :=
  add_information early (add_information late (fresh annovate_path)).

(** A fresh store with [two_lines] added, and the file system after
    its [write] where there was no record. *)
Definition with_two_lines : MetaFile datetime :=
  add_information two_lines (fresh annovate_path).

Definition after_two_lines : FS :=
  snd (snd (write (with_two_lines, empty_fs))).

(** [loaded] with [described] added, and the file system after its
    [write] over [record_text]. *)
Definition with_described : MetaFile datetime :=
  add_information described loaded.

Definition after_described : FS :=
  snd (snd (write (with_described, with_file record_text))).

(** A key that starts with ['@']. *)
Definition at_key : MetaInformation datetime :=
  {| filename := "plot.png"; time := noon;
     properties := [("@author", "jb")] |}.

(** A record whose last line has no line end. *)
Definition unterminated_text : string :=
  "@plot.png@2021-05-01T12:00:00" ++ NL ++ "infra_correction=8.2".

(** No record, and none can be created: the directory is missing. *)
Definition no_directory : FS := fun _ => Missing false.

End Sample.

(** ** More samples: batches, records, command lines and paths *)

Module MoreSamples.

Import Naive Sample.

(** An object name with ['@'] in it. *)
Definition at_name : MetaInformation datetime :=
  {| filename := "run@host.log"; time := noon;
     properties := [("origin", "cluster")] |}.

Definition with_at_name : MetaFile datetime := add_information at_name loaded.

(** A record whose second header has no timestamp that can be read. *)
Definition bad_header_text : string :=
  "@plot.png@2021-05-01T12:00:00" ++ NL
  ++ "infra_correction=8.2" ++ NL
  ++ "@results.csv@yesterday" ++ NL.

(** [loaded] with two batches added, and the file system after their
    [write] over [record_text]. *)
Definition with_two_more : MetaFile datetime := add_all [described; bare] loaded.

Definition after_two_more : FS :=
  snd (snd (write (with_two_more, with_file record_text))).

(** The items of a [set], one key twice, one value with ['=']. *)
Definition set_items : list string :=
  ["description=draft"; "origin=./run --alpha=8.2"; "description=Field notes"].

Definition set_properties : Dict.t string :=
  [("description", "Field notes"); ("origin", "./run --alpha=8.2")].

Definition before_set : World datetime :=
  {| fs := with_file record_text; stdout := [] |}.

(** The world after [set notes.txt] with [set_items] in the evening. *)
Definition after_set : World datetime :=
  snd (main_set annovate_path "notes.txt" set_items evening before_set).

Definition frob : Namespace :=
  {| action := "frob"; items := ["description"]; default := "-" |}.

Definition list_all : Namespace :=
  {| action := "list"; items := []; default := "-" |}.

Definition quiet (record : string) : Process (datetime := datetime) :=
  {| world := {| fs := with_file record; stdout := [] |}; stderr := [] |}.

(** A working directory [/home/data] with a file [plot.png] in it. *)
Definition sample_resolve (arg : string) : list string :=
  if (arg =? ".")%string then ["home"; "data"]
  else if (arg =? "plot.png")%string then ["home"; "data"; "plot.png"]
  else ["home"; "data"; arg].

Definition sample_is_dir (path : list string) : bool :=
  (List.length path <=? 2)%nat.

End MoreSamples.

(** * Properties *)

(** ** Strings *)

Module StrFacts.
Import Str.

Lemma app_assoc (a b c : string) : (a ++ b) ++ c = a ++ b ++ c.
Proof. induction a as [|x a IH]; simpl; [reflexivity | now rewrite IH]. Qed.

Lemma app_nil_r (a : string) : a ++ "" = a.
Proof. induction a as [|x a IH]; simpl; [reflexivity | now rewrite IH]. Qed.

Lemma contains_app (c : ascii) (a b : string) :
  contains c (a ++ b) = contains c a || contains c b.
Proof.
  induction a as [|x a IH]; simpl; [reflexivity|].
  now rewrite IH, orb_assoc.
Qed.

Lemma split1_absent (c : ascii) (s : string) :
  contains c s = false -> split1 c s = [s].
Proof.
  induction s as [|x s IH]; simpl; intros Hc; [reflexivity|].
  apply orb_false_iff in Hc as [Hx Hs].
  now rewrite Hx, (IH Hs).
Qed.

Lemma split1_first (c : ascii) (k v : string) :
  contains c k = false -> split1 c (k ++ String c v) = [k; v].
Proof.
  induction k as [|x k IH]; simpl; intros Hc.
  - now rewrite Ascii.eqb_refl.
  - apply orb_false_iff in Hc as [Hx Hk].
    now rewrite Hx, (IH Hk).
Qed.

Lemma split_absent (c : ascii) (s : string) :
  contains c s = false -> split c s = [s].
Proof.
  induction s as [|x s IH]; simpl; intros Hc; [reflexivity|].
  apply orb_false_iff in Hc as [Hx Hs].
  now rewrite Hx, (IH Hs).
Qed.

Lemma split_two (c : ascii) (a b : string) :
  contains c a = false -> contains c b = false ->
  split c (a ++ String c b) = [a; b].
Proof.
  induction a as [|x a IH]; simpl; intros Ha Hb.
  - now rewrite Ascii.eqb_refl, (split_absent _ _ Hb).
  - apply orb_false_iff in Ha as [Hx Ha].
    now rewrite Hx, (IH Ha Hb).
Qed.

Lemma rstrip_line (s : string) :
  contains LF s = false -> rstrip LF (s ++ NL) = s.
Proof.
  induction s as [|x s IH]; simpl; intros Hc; [reflexivity|].
  apply orb_false_iff in Hc as [Hx Hs].
  rewrite (IH Hs). destruct s; [now rewrite Hx | reflexivity].
Qed.

Lemma rstrip_keeps_absent (c d : ascii) (s : string) :
  contains c s = false -> contains c (rstrip d s) = false.
Proof.
  induction s as [|x s IH]; simpl; intros Hc; [reflexivity|].
  apply orb_false_iff in Hc as [Hx Hs]. specialize (IH Hs).
  destruct (rstrip d s) eqn:E.
  - destruct (x =? d)%char; simpl; [reflexivity | now rewrite Hx].
  - simpl in *. now rewrite Hx.
Qed.

Lemma one_line_spec (s : string) :
  one_line s = true <-> contains LF s = false /\ contains CR s = false.
Proof.
  unfold one_line. rewrite andb_true_iff, !negb_true_iff. tauto.
Qed.

(** A line without line ends, followed by LF, is read as that line. *)
Lemma lines_from_line (s rest cur : string) :
  one_line s = true ->
  lines_from cur false (s ++ String LF rest)
  = (cur ++ s ++ NL) :: lines_from "" false rest.
Proof.
  rewrite one_line_spec. revert cur.
  induction s as [|x s IH]; simpl; intros cur [Hl Hc].
  - reflexivity.
  - apply orb_false_iff in Hl as [Hxl Hl].
    apply orb_false_iff in Hc as [Hxc Hc].
    rewrite Hxl, Hxc, IH by (split; assumption).
    now rewrite app_assoc.
Qed.

(** Reading what follows a newline-terminated text starts afresh. *)
Lemma lines_from_app (c r cur : string) (f : bool) :
  endswith LF c = true ->
  lines_from cur f (c ++ r)
  = (lines_from cur f c ++ lines_from "" false r)%list.
Proof.
  revert cur f.
  induction c as [|x c IH]; intros cur f He; [discriminate|].
  assert (Hc : c = "" /\ x = LF \/ endswith LF c = true).
  { simpl in He. destruct c; [left | right; assumption].
    split; [reflexivity | now apply Ascii.eqb_eq]. }
  destruct Hc as [[-> ->] | Hc].
  - simpl. destruct f; reflexivity.
  - simpl.
    destruct (x =? LF)%char; [destruct f|destruct (x =? CR)%char];
      rewrite IH by assumption; reflexivity.
Qed.

Lemma readlines_app (c r : string) :
  newline_terminated c = true ->
  readlines (c ++ r) = (readlines c ++ readlines r)%list.
Proof.
  destruct c as [|x c]; intros H; [reflexivity|].
  now apply lines_from_app.
Qed.

End StrFacts.

(** ** Dictionaries *)

Module DictFacts.
Import Dict.

Section Facts.
Context {V : Type}.
Implicit Types (d : Dict.t V) (k : string) (v : V).

Lemma get_absent_keys k d :
  get k d = None <-> existsb (String.eqb k) (keys d) = false.
Proof.
  induction d as [|[k' v'] d IH]; simpl; [tauto|].
  rewrite (String.eqb_sym k k').
  destruct (k' =? k)%string; simpl; [split; discriminate | exact IH].
Qed.

Lemma keys_setdefault k v d : keys (setdefault k v d) = note (keys d) k.
Proof.
  unfold setdefault, note.
  destruct (get k d) eqn:E.
  - destruct (existsb (String.eqb k) (keys d)) eqn:E'; [reflexivity|].
    apply get_absent_keys in E'. congruence.
  - apply get_absent_keys in E. rewrite E.
    unfold keys. now rewrite map_app.
Qed.

Lemma keys_update k (f : V -> V) d : keys (update k f d) = keys d.
Proof.
  induction d as [|[k' v'] d IH]; simpl; [reflexivity|].
  destruct (k' =? k)%string; simpl; [reflexivity | now rewrite IH].
Qed.

Lemma get_update_same k (f : V -> V) d :
  get k (update k f d) = option_map f (get k d).
Proof.
  induction d as [|[k' v'] d IH]; simpl; [reflexivity|].
  destruct (k' =? k)%string eqn:E; simpl; rewrite E; [reflexivity | exact IH].
Qed.

Lemma get_update_other k k' (f : V -> V) d :
  k' <> k -> get k' (update k f d) = get k' d.
Proof.
  intros Hne. induction d as [|[k0 v0] d IH]; simpl; [reflexivity|].
  destruct (k0 =? k)%string eqn:E; simpl.
  - apply String.eqb_eq in E. subst k0.
    apply String.eqb_neq in Hne. rewrite String.eqb_sym in Hne.
    now rewrite Hne.
  - now rewrite IH.
Qed.

Lemma update_update k (f g : V -> V) d :
  update k g (update k f d) = update k (fun x => g (f x)) d.
Proof.
  induction d as [|[k' v'] d IH]; simpl; [reflexivity|].
  destruct (k' =? k)%string eqn:E; simpl; rewrite E; [reflexivity|].
  now rewrite IH.
Qed.

Lemma update_ext k (f g : V -> V) d :
  (forall x, f x = g x) -> update k f d = update k g d.
Proof.
  intros Hfg. induction d as [|[k' v'] d IH]; simpl; [reflexivity|].
  now rewrite IH, Hfg.
Qed.

Lemma update_id k d : update k (fun x => x) d = d.
Proof.
  induction d as [|[k' v'] d IH]; simpl; [reflexivity|].
  rewrite IH. now destruct (k' =? k)%string.
Qed.

Lemma get_set_same k v d : get k (set k v d) = Some v.
Proof.
  induction d as [|[k' v'] d IH]; simpl.
  - now rewrite String.eqb_refl.
  - destruct (k' =? k)%string eqn:E; simpl; rewrite E; [reflexivity | exact IH].
Qed.

Lemma get_set_other k k' v d : k' <> k -> get k' (set k v d) = get k' d.
Proof.
  intros Hne. induction d as [|[k0 v0] d IH]; simpl.
  - apply String.eqb_neq in Hne. rewrite String.eqb_sym in Hne.
    now rewrite Hne.
  - destruct (k0 =? k)%string eqn:E; simpl.
    + apply String.eqb_eq in E. subst k0.
      apply String.eqb_neq in Hne. rewrite String.eqb_sym in Hne.
      now rewrite Hne.
    + now rewrite IH.
Qed.

Lemma get_app k d d' :
  get k (d ++ d')%list = match get k d with Some x => Some x | None => get k d' end.
Proof.
  induction d as [|[k0 v0] d IH]; simpl; [reflexivity|].
  destruct (k0 =? k)%string; [reflexivity | exact IH].
Qed.

Lemma get_setdefault_same k v d :
  get k (setdefault k v d)
  = Some match get k d with Some x => x | None => v end.
Proof.
  unfold setdefault. destruct (get k d) eqn:E; [exact E|].
  rewrite get_app, E. simpl. now rewrite String.eqb_refl.
Qed.

Lemma get_setdefault_other k k' v d :
  k' <> k -> get k' (setdefault k v d) = get k' d.
Proof.
  intros Hne. unfold setdefault. destruct (get k d); [reflexivity|].
  rewrite get_app. destruct (get k' d); [reflexivity|]. simpl.
  apply String.eqb_neq in Hne. rewrite String.eqb_sym in Hne.
  now rewrite Hne.
Qed.

Lemma get_In_keys k v d : get k d = Some v -> In k (keys d).
Proof.
  induction d as [|[k0 v0] d IH]; simpl; [discriminate|].
  destruct (k0 =? k)%string eqn:E.
  - apply String.eqb_eq in E. now left.
  - intros H. right. now apply IH.
Qed.

End Facts.

End DictFacts.

(** ** Loading what [write] wrote *)

Section LoadFacts.

Context {datetime : Type} {DT : DateTime datetime}.
Implicit Types (info : MetaInformation datetime) (st : loop_vars datetime).

Lemma load_lines_app (l1 l2 : list string) st :
  load_lines (l1 ++ l2) st
  = match load_lines l1 st with
    | inl e => inl e
    | inr st' => load_lines l2 st'
    end.
Proof.
  revert st. induction l1 as [|l l1 IH]; intros st; simpl; [reflexivity|].
  destruct (load_line l st); [reflexivity | apply IH].
Qed.

Lemma unpack2_raises (parts : list string) (e : exn) :
  unpack2 parts = inl e -> exists msg, e = ValueError msg.
Proof.
  destruct parts as [|a [|b [|c parts]]]; simpl; intros [= <-];
    eexists; reflexivity.
Qed.

(** Every exception of the loading loop is a [ValueError]. *)
Lemma load_line_raises (line : string) st (e : exn) :
  load_line line st = inl e -> exists msg, e = ValueError msg.
Proof.
  unfold load_line.
  destruct (Str.startswith "@" line).
  - destruct (unpack2 _) as [e'|[file_key time_str]] eqn:E.
    + intros [= <-]. eapply unpack2_raises, E.
    + destruct (fromisoformat time_str); intros [= <-]. eexists; reflexivity.
  - destruct (unpack2 _) as [e'|[key val]] eqn:E.
    + intros [= <-]. eapply unpack2_raises, E.
    + destruct (current_dict st), (file_time st); intros [= <-];
        eexists; reflexivity.
Qed.

Lemma load_lines_raises (lines : list string) st (e : exn) :
  load_lines lines st = inl e -> exists msg, e = ValueError msg.
Proof.
  revert st. induction lines as [|l lines IH]; intros st; simpl; [discriminate|].
  destruct (load_line l st) eqn:E.
  - intros [= <-]. eapply load_line_raises, E.
  - apply IH.
Qed.

Lemma header_line_shape info :
  header_line info
  = String "@" (filename info ++ String "@" (isoformat (time info))) ++ NL.
Proof.
  unfold header_line. simpl. f_equal.
  rewrite StrFacts.app_assoc. reflexivity.
Qed.

Lemma property_line_shape (kv : string * string) :
  property_line kv = (fst kv ++ String "=" (snd kv)) ++ NL.
Proof.
  unfold property_line. rewrite StrFacts.app_assoc. reflexivity.
Qed.

Lemma load_line_header info st :
  well_formed info ->
  load_line (header_line info) st
  = inr {| l_data := Dict.setdefault (filename info) [] (l_data st);
           current_dict := Some (filename info);
           file_time := Some (time info) |}.
Proof.
  intros (Hf & Hfa & Ht & Hta & Hrt & _).
  apply StrFacts.one_line_spec in Hf as [Hf _].
  apply StrFacts.one_line_spec in Ht as [Ht _].
  rewrite header_line_shape. unfold load_line.
  cbn [Str.startswith append Str.drop1]. rewrite Ascii.eqb_refl.
  rewrite StrFacts.rstrip_line.
  2:{ rewrite StrFacts.contains_app. simpl. now rewrite Hf, Ht. }
  rewrite StrFacts.split_two by assumption. simpl.
  now rewrite Hrt.
Qed.

Lemma property_ok_spec (kv : string * string) :
  property_ok kv = true ->
  Str.one_line (fst kv) = true /\ Str.contains "=" (fst kv) = false
  /\ Str.startswith "@" (fst kv) = false /\ Str.one_line (snd kv) = true.
Proof.
  unfold property_ok. rewrite !andb_true_iff, !negb_true_iff. tauto.
Qed.

Lemma load_line_property (kv : string * string) st (file_key : string) (t : datetime) :
  property_ok kv = true ->
  current_dict st = Some file_key -> file_time st = Some t ->
  load_line (property_line kv) st
  = inr {| l_data :=
             Dict.update file_key
               (Dict.set (fst kv) {| value := snd kv; assigned := t |})
               (l_data st);
           current_dict := Some file_key;
           file_time := Some t |}.
Proof.
  intros Hok Hc Ht. apply property_ok_spec in Hok as (Hk & Hke & Hka & Hv).
  apply StrFacts.one_line_spec in Hk as [Hk _].
  apply StrFacts.one_line_spec in Hv as [Hv _].
  rewrite property_line_shape. unfold load_line.
  assert (Hs : Str.startswith "@" ((fst kv ++ String "=" (snd kv)) ++ NL) = false).
  { destruct (fst kv); [reflexivity | exact Hka]. }
  rewrite Hs, StrFacts.rstrip_line.
  2:{ rewrite StrFacts.contains_app. simpl. now rewrite Hk, Hv. }
  rewrite StrFacts.split1_first by assumption. simpl.
  now rewrite Hc, Ht.
Qed.

Lemma load_properties (props : Dict.t string) (d : Dict.t (Dict.t (DatedValue datetime)))
    (file_key : string) (t : datetime) :
  forallb property_ok props = true ->
  load_lines (map property_line props)
    {| l_data := d; current_dict := Some file_key; file_time := Some t |}
  = inr {| l_data :=
             fold_left
               (fun d' kv =>
                  Dict.update file_key
                    (Dict.set (fst kv) {| value := snd kv; assigned := t |}) d')
               props d;
           current_dict := Some file_key;
           file_time := Some t |}.
Proof.
  revert d. induction props as [|kv props IH]; intros d Hok; [reflexivity|].
  simpl in Hok. apply andb_true_iff in Hok as [Hkv Hok].
  cbn [map load_lines].
  erewrite load_line_property by (try exact Hkv; reflexivity).
  apply IH, Hok.
Qed.

Lemma readlines_properties (props : Dict.t string) (rest : string) :
  forallb property_ok props = true ->
  Str.readlines (join (map property_line props) ++ rest)
  = (map property_line props ++ Str.readlines rest)%list.
Proof.
  induction props as [|kv props IH]; intros Hok; [reflexivity|].
  simpl in Hok. apply andb_true_iff in Hok as [Hkv Hok].
  apply property_ok_spec in Hkv as (Hk & _ & _ & Hv).
  apply StrFacts.one_line_spec in Hk as [Hk Hk'].
  apply StrFacts.one_line_spec in Hv as [Hv Hv'].
  cbn [map join]. rewrite StrFacts.app_assoc.
  rewrite property_line_shape at 1. rewrite StrFacts.app_assoc.
  unfold Str.readlines, NL. cbn [append].
  rewrite StrFacts.lines_from_line.
  2:{ apply StrFacts.one_line_spec.
      rewrite !StrFacts.contains_app. simpl. now rewrite Hk, Hk', Hv, Hv'. }
  cbn [append]. rewrite <- property_line_shape.
  rewrite <- List.app_comm_cons. f_equal. apply IH, Hok.
Qed.

Lemma readlines_render_batch info (rest : string) :
  well_formed info ->
  Str.readlines (render_batch info ++ rest)
  = header_line info
    :: (map property_line (properties info) ++ Str.readlines rest)%list.
Proof.
  intros (Hf & _ & Ht & _ & _ & Hok).
  apply StrFacts.one_line_spec in Hf as [Hf Hf'].
  apply StrFacts.one_line_spec in Ht as [Ht Ht'].
  unfold render_batch. rewrite StrFacts.app_assoc.
  rewrite header_line_shape at 1. rewrite StrFacts.app_assoc.
  unfold Str.readlines, NL. cbn [append].
  change (String "@" (?s ++ ?r)) with (String "@" s ++ r).
  rewrite StrFacts.lines_from_line.
  2:{ apply StrFacts.one_line_spec. simpl.
      rewrite !StrFacts.contains_app. simpl. now rewrite Hf, Hf', Ht, Ht'. }
  change ("" ++ ?x) with x. rewrite <- header_line_shape.
  f_equal. apply readlines_properties, Hok.
Qed.

(** Loading the lines of one rendered batch merges the batch. *)
Lemma load_batch info (rest : string) st :
  well_formed info ->
  load_lines (Str.readlines (render_batch info ++ rest)) st
  = load_lines (Str.readlines rest)
      {| l_data := merge info (l_data st);
         current_dict := Some (filename info);
         file_time := Some (time info) |}.
Proof.
  intros Hwf. rewrite (readlines_render_batch _ _ Hwf).
  cbn [load_lines]. rewrite (load_line_header _ _ Hwf).
  rewrite load_lines_app, load_properties by apply Hwf.
  reflexivity.
Qed.

(** Loading a rendered list of batches replays them in order. *)
Lemma load_render (infos : list (MetaInformation datetime)) st :
  Forall well_formed infos ->
  exists st', load_lines (Str.readlines (render infos)) st = inr st'
              /\ l_data st' = replay infos (l_data st).
Proof.
  intros Hwf. revert st.
  induction Hwf as [|info infos Hi _ IH]; intros st.
  - exists st. split; reflexivity.
  - unfold render. cbn [map join].
    rewrite (load_batch _ _ _ Hi).
    destruct (IH {| l_data := merge info (l_data st);
                    current_dict := Some (filename info);
                    file_time := Some (time info) |}) as (st' & Hl & Hd).
    exists st'. split; [exact Hl | exact Hd].
Qed.

Lemma render_app (a b : list (MetaInformation datetime)) :
  render (a ++ b) = render a ++ render b.
Proof.
  unfold render. induction a as [|x a IH]; [reflexivity|].
  cbn [List.app map join]. now rewrite IH, StrFacts.app_assoc.
Qed.

End LoadFacts.

(** ** What [write] does to the file system *)

Lemma fs_update_same (p : string) (n : node) (fs : FS) : fs_update p n fs p = n.
Proof. unfold fs_update. now rewrite String.eqb_refl. Qed.

Lemma fs_update_other (p q : string) (n : node) (fs : FS) :
  q <> p -> fs_update p n fs q = fs q.
Proof. intros H. unfold fs_update. apply String.eqb_neq in H. now rewrite H. Qed.

Lemma appended_nothing (p : string) (fs : FS) :
  is_regular p fs -> appended p "" fs fs.
Proof.
  intros (c & r & w & H). split; [|reflexivity].
  exists c, r, w. now rewrite StrFacts.app_nil_r.
Qed.

Lemma appended_trans (p t1 t2 : string) (fs0 fs1 fs2 : FS) :
  appended p t1 fs0 fs1 -> appended p t2 fs1 fs2 ->
  appended p (t1 ++ t2) fs0 fs2.
Proof.
  intros [(c & r & w & H0 & H1) Ho1] [(c' & r' & w' & H1' & H2) Ho2].
  rewrite H1 in H1'. injection H1' as <- <- <-.
  split.
  - exists c, r, w. split; [exact H0|]. now rewrite <- StrFacts.app_assoc.
  - intros q Hq. now rewrite Ho2, Ho1.
Qed.

Lemma file_write_appended (p s : string) (fs : FS) :
  is_regular p fs ->
  exists fs', file_write p s fs = (inr tt, fs') /\ appended p s fs fs'.
Proof.
  intros (c & r & w & H). unfold file_write. rewrite H.
  eexists. split; [reflexivity|].
  split.
  - exists c, r, w. split; [exact H | apply fs_update_same].
  - intros q Hq. now apply fs_update_other.
Qed.

Lemma appended_regular (p t : string) (fs fs' : FS) :
  appended p t fs fs' -> is_regular p fs'.
Proof. intros [(c & r & w & _ & H) _]. red. eauto. Qed.

Section WriteFacts.

Context {datetime : Type} {DT : DateTime datetime}.
Implicit Types (info : MetaInformation datetime) (me : MetaFile datetime).

Lemma io_file_write me (p s : string) (fs fs' : FS) :
  file_write p s fs = (inr tt, fs') ->
  io (file_write p s) (me, fs) = (inr tt, (me, fs')).
Proof. intros H. unfold io. cbn [snd fst]. now rewrite H. Qed.

Lemma write_properties me (p : string) (props : Dict.t string) (fs : FS) :
  is_regular p fs ->
  exists fs',
    for_each props (fun kv => io (file_write p (property_line kv))) (me, fs)
    = (inr tt, (me, fs'))
    /\ appended p (join (map property_line props)) fs fs'.
Proof.
  revert fs. induction props as [|kv props IH]; intros fs H.
  - exists fs. split; [reflexivity | now apply appended_nothing].
  - destruct (file_write_appended p (property_line kv) fs H)
      as (fs1 & Hw & Ha).
    destruct (IH fs1 (appended_regular _ _ _ _ Ha)) as (fs2 & Hf & Ha2).
    exists fs2. split.
    + cbn [for_each]. unfold bind at 1.
      rewrite (io_file_write _ _ _ _ _ Hw). exact Hf.
    + cbn [map join]. eapply appended_trans; eassumption.
Qed.

Lemma write_batches me (p : string) (infos : list (MetaInformation datetime))
    (fs : FS) :
  is_regular p fs ->
  exists fs',
    for_each infos (fun info =>
      io (file_write p (header_line info)) ;;
      for_each (properties info) (fun kv =>
        io (file_write p (property_line kv)))) (me, fs)
    = (inr tt, (me, fs'))
    /\ appended p (render infos) fs fs'.
Proof.
  revert fs. induction infos as [|info infos IH]; intros fs H.
  - exists fs. split; [reflexivity | now apply appended_nothing].
  - destruct (file_write_appended p (header_line info) fs H)
      as (fs1 & Hw & Ha1).
    destruct (write_properties me p (properties info) fs1
                (appended_regular _ _ _ _ Ha1)) as (fs2 & Hp & Ha2).
    destruct (IH fs2 (appended_regular _ _ _ _ Ha2)) as (fs3 & Hf & Ha3).
    exists fs3. split.
    + cbn [for_each]. unfold bind at 1. unfold bind at 1.
      rewrite (io_file_write _ _ _ _ _ Hw), Hp. exact Hf.
    + unfold render. cbn [map join]. unfold render_batch.
      rewrite StrFacts.app_assoc.
      eapply appended_trans; [exact Ha1|].
      eapply appended_trans; [exact Ha2 | exact Ha3].
Qed.

(** A [write] with pending batches whose [open] raises. *)
Lemma write_unopenable me (fs0 : FS) (e : exn) :
  new_information me <> [] ->
  open_append (path me) fs0 = (inl e, fs0) ->
  write (me, fs0) = (inl e, (me, fs0)).
Proof.
  intros Hne Hr.
  unfold write. unfold bind at 1. unfold self at 1. cbn [fst].
  destruct (new_information me) as [|i l]; [congruence|].
  unfold bind at 1. unfold bind at 1. unfold io at 1. cbn [snd fst].
  rewrite Hr. reflexivity.
Qed.

(** A [write] with pending batches on a regular file that can be
    appended to. *)
Lemma write_regular me (fs : FS) (c : string) (r : bool) :
  new_information me <> [] ->
  fs (path me) = Regular c r true ->
  exists fs',
    write (me, fs) = (inr tt, (flushed me, fs'))
    /\ appended (path me) (render (new_information me)) fs fs'.
Proof.
  intros Hne Hfs.
  destruct (write_batches me (path me) (new_information me) fs) as (fs' & Hw & Ha).
  { exists c, r, true. exact Hfs. }
  exists fs'. split; [|exact Ha].
  unfold write. unfold bind at 1. unfold self at 1. cbn [fst].
  destruct (new_information me) as [|i l] eqn:E; [congruence|].
  unfold bind at 1. unfold bind at 1. unfold io at 1, open_append.
  cbn [snd fst]. rewrite Hfs.
  unfold bind at 1 in Hw. unfold bind at 1.
  cbn [for_each] in Hw |- *. rewrite Hw. reflexivity.
Qed.

(** A [write] with pending batches where no record exists yet and one
    can be created. *)
Lemma write_missing me (fs : FS) :
  new_information me <> [] ->
  fs (path me) = Missing true ->
  exists fs',
    write (me, fs) = (inr tt, (flushed me, fs'))
    /\ fs' (path me) = Regular (render (new_information me)) true true
    /\ forall q, q <> path me -> fs' q = fs q.
Proof.
  intros Hne Hfs.
  destruct (write_batches me (path me) (new_information me)
              (fs_update (path me) (Regular "" true true) fs))
    as (fs' & Hw & [(c & r & w & H0 & H1) Ho]).
  { exists "", true, true. apply fs_update_same. }
  rewrite fs_update_same in H0. injection H0 as <- <- <-.
  exists fs'. split; [|split].
  - unfold write. unfold bind at 1. unfold self at 1. cbn [fst].
    destruct (new_information me) as [|i l] eqn:E; [congruence|].
    unfold bind at 1. unfold bind at 1. unfold io at 1, open_append.
    cbn [snd fst]. rewrite Hfs.
    unfold bind at 1 in Hw. unfold bind at 1.
    cbn [for_each] in Hw |- *. rewrite Hw. reflexivity.
  - exact H1.
  - intros q Hq. rewrite (Ho q Hq). now apply fs_update_other.
Qed.

End WriteFacts.

(** ** Loading *)

Section Load.

Context {datetime : Type} {DT : DateTime datetime}.
Implicit Types (info : MetaInformation datetime) (me : MetaFile datetime)
  (st : loop_vars datetime).

Lemma init_missing (p : string) (fs : FS) (creatable : bool) :
  fs p = Missing creatable ->
  MetaFile_init p fs = (inr (fresh p), fs).
Proof.
  intros H. unfold MetaFile_init, bind, path_exists. now rewrite H.
Qed.

Lemma init_regular (p : string) (fs : FS) (c : string) (w : bool) :
  fs p = Regular c true w ->
  MetaFile_init p fs
  = (match load_lines (Str.readlines c) loop_start with
     | inl e => inl e
     | inr st => inr {| path := p; data := l_data st; new_information := [] |}
     end, fs).
Proof.
  intros H. unfold MetaFile_init, bind, path_exists, open_read, lift, ret.
  rewrite H. cbv beta iota. rewrite H.
  now destruct (load_lines (Str.readlines c) loop_start).
Qed.

Lemma init_unreadable (p : string) (fs : FS) :
  (fs p = Directory \/ exists c w, fs p = Regular c false w) ->
  exists msg, MetaFile_init p fs = (inl (OSError msg), fs).
Proof.
  intros [H|(c & w & H)];
    unfold MetaFile_init, bind, path_exists, open_read, lift, ret;
    rewrite H; cbv beta iota; rewrite H; eexists; reflexivity.
Qed.

Lemma init_frame (p : string) (fs : FS) : snd (MetaFile_init p fs) = fs.
Proof.
  destruct (fs p) as [creatable| |c [|] w] eqn:E.
  - now rewrite (init_missing _ _ _ E).
  - destruct (init_unreadable p fs) as [msg ->]; [now left | reflexivity].
  - now rewrite (init_regular _ _ _ _ E).
  - destruct (init_unreadable p fs) as [msg ->]; [|reflexivity].
    right. now exists c, w.
Qed.

(** A store was built, so the record is absent or a readable regular
    file whose lines the loop accepted. *)
Lemma init_success (p : string) (fs fs' : FS) me :
  MetaFile_init p fs = (inr me, fs') ->
  fs' = fs
  /\ ((exists creatable, fs p = Missing creatable /\ me = fresh p)
      \/ (exists c w st,
            fs p = Regular c true w
            /\ load_lines (Str.readlines c) loop_start = inr st
            /\ me = {| path := p; data := l_data st; new_information := [] |})).
Proof.
  intros H. split.
  - now rewrite <- (init_frame p fs), H.
  - destruct (fs p) as [creatable| |c [|] w] eqn:E.
    + rewrite (init_missing _ _ _ E) in H. injection H as <- _.
      left. now exists creatable.
    + destruct (init_unreadable p fs) as [msg Hm]; [now left|].
      rewrite Hm in H. discriminate.
    + rewrite (init_regular _ _ _ _ E) in H.
      destruct (load_lines (Str.readlines c) loop_start) as [e|st] eqn:El;
        [discriminate|].
      injection H as <- _. right. now exists c, w, st.
    + destruct (init_unreadable p fs) as [msg Hm];
        [right; now exists c, w|].
      rewrite Hm in H. discriminate.
Qed.

Lemma load_line_orphan (line : string) :
  Str.startswith "@" line = false ->
  exists msg, load_line line loop_start = inl (ValueError msg).
Proof.
  intros H. unfold load_line. rewrite H.
  destruct (unpack2 _) as [e|[key val]] eqn:E.
  - destruct (unpack2_raises _ _ E) as [msg ->]. now exists msg.
  - simpl. eexists; reflexivity.
Qed.

Lemma load_line_no_equals (line : string) st :
  Str.startswith "@" line = false ->
  Str.contains "=" line = false ->
  load_line line st
  = inl (ValueError "not enough values to unpack (expected 2, got 1)").
Proof.
  intros Hs Hc. unfold load_line. rewrite Hs.
  rewrite StrFacts.split1_absent
    by now apply StrFacts.rstrip_keeps_absent.
  reflexivity.
Qed.

Lemma load_lines_bad_line (lines : list string) (line : string) st :
  In line lines ->
  (forall st', exists e, load_line line st' = inl e) ->
  exists e, load_lines lines st = inl e.
Proof.
  intros Hin Hbad. revert st.
  induction lines as [|l lines IH]; intros st; [contradiction|].
  simpl. destruct (load_line l st) as [e|st'] eqn:E; [now exists e|].
  destruct Hin as [->|Hin]; [|now apply IH].
  destruct (Hbad st) as [e He]. congruence.
Qed.

(** C3: a record whose first line is not a header line cannot be
    loaded: [MetaFile.__init__] raises [ValueError], so no store, not
    even a partly filled one, is returned; the record is left as it
    was. *)
Theorem orphan_property_line_is_fatal (p : string) (fs : FS) (c : string)
    (w : bool) (line : string) (rest : list string) :
  fs p = Regular c true w ->
  Str.readlines c = line :: rest ->
  Str.startswith "@" line = false ->
  exists msg, MetaFile_init p fs = (inl (ValueError msg), fs).
Proof.
  intros Hfs Hl Hs. rewrite (init_regular _ _ _ _ Hfs), Hl. simpl.
  destruct (load_line_orphan line Hs) as [msg ->]. now exists msg.
Qed.

(** C9: a record with a line that is not a header line and holds no
    ['='] (a blank line is one) cannot be loaded, wherever the line
    stands: [MetaFile.__init__] raises [ValueError]. *)
Theorem line_without_equals_is_fatal (p : string) (fs : FS) (c : string)
    (w : bool) (line : string) :
  fs p = Regular c true w ->
  In line (Str.readlines c) ->
  Str.startswith "@" line = false ->
  Str.contains "=" line = false ->
  exists msg, MetaFile_init p fs = (inl (ValueError msg), fs).
Proof.
  intros Hfs Hin Hs Hc. rewrite (init_regular _ _ _ _ Hfs).
  destruct (load_lines_bad_line (Str.readlines c) line loop_start Hin)
    as [e He].
  { intros st'. eexists. now apply load_line_no_equals. }
  rewrite He. destruct (load_lines_raises _ _ _ He) as [msg ->].
  now exists msg.
Qed.

(** C4: [MetaFile.__init__] leaves the file system as it found it,
    whether it returns or raises; where there is no record it returns
    a store with empty [data] and nothing pending, and the record is
    still missing afterwards. *)
Theorem load_is_read_only (p : string) (fs : FS) :
  snd (MetaFile_init p fs) = fs
  /\ forall creatable,
       fs p = Missing creatable ->
       MetaFile_init p fs = (inr (fresh p), fs)
       /\ snd (MetaFile_init p fs) p = Missing creatable.
Proof.
  split; [apply init_frame|].
  intros creatable H. rewrite (init_missing _ _ _ H). now split.
Qed.

End Load.

(** ** Flushing *)

Section Flush.

Context {datetime : Type} {DT : DateTime datetime}.
Implicit Types (info : MetaInformation datetime) (me : MetaFile datetime).

Lemma open_append_raises (p : string) (fs : FS) (e : exn) :
  fst (open_append p fs) = inl e ->
  open_append p fs = (inl e, fs) /\ exists msg, e = OSError msg.
Proof.
  unfold open_append.
  destruct (fs p) as [[|]| |c r [|]]; simpl; intros [= <-];
    (split; [reflexivity | eexists; reflexivity]).
Qed.

(** C6: when there are pending batches and the record cannot be opened
    for append, [write] raises the [OSError] of [open]; the store,
    [new_information] included, and the file system are as before the
    call. *)
Theorem write_open_failure_keeps_pending me (fs : FS) (e : exn) :
  new_information me <> [] ->
  fst (open_append (path me) fs) = inl e ->
  write (me, fs) = (inl e, (me, fs)) /\ exists msg, e = OSError msg.
Proof.
  intros Hne Ho. destruct (open_append_raises _ _ _ Ho) as [Hr Hmsg].
  split; [now apply write_unopenable | exact Hmsg].
Qed.

(** C7: with nothing pending, [write] returns without touching the
    file system: the state after the call is the state before it. *)
Theorem write_nothing_pending me (fs : FS) :
  new_information me = [] ->
  write (me, fs) = (inr tt, (me, fs)).
Proof.
  intros H. unfold write, bind, self, ret, set_new_information. cbn [fst snd].
  rewrite H. destruct me as [p d n]. simpl in *. now subst n.
Qed.

End Flush.

(** ** Merging batches *)

Section Merge.

Context {datetime : Type} {DT : DateTime datetime}.
Implicit Types (info : MetaInformation datetime) (me : MetaFile datetime)
  (st : loop_vars datetime) (d : Dict.t (Dict.t (DatedValue datetime))).

Lemma fold_update (file : string) (t : datetime) (props : Dict.t string) d :
  fold_left
    (fun d' kv =>
       Dict.update file
         (Dict.set (fst kv) {| value := snd kv; assigned := t |}) d')
    props d
  = Dict.update file (assign t props) d.
Proof.
  unfold assign. revert d.
  induction props as [|kv props IH]; intros d; simpl.
  - symmetry. apply DictFacts.update_id.
  - rewrite IH, DictFacts.update_update. reflexivity.
Qed.

Lemma merge_unfold info d :
  merge info d
  = Dict.update (filename info) (assign (time info) (properties info))
      (Dict.setdefault (filename info) [] d).
Proof. unfold merge. apply fold_update. Qed.

Lemma keys_merge info d :
  Dict.keys (merge info d) = note (Dict.keys d) (filename info).
Proof.
  now rewrite merge_unfold, DictFacts.keys_update, DictFacts.keys_setdefault.
Qed.

Lemma get_merge_same info d :
  Dict.get (filename info) (merge info d)
  = Some (assign (time info) (properties info)
            match Dict.get (filename info) d with
            | Some file_data => file_data
            | None => []
            end).
Proof.
  now rewrite merge_unfold, DictFacts.get_update_same,
    DictFacts.get_setdefault_same.
Qed.

Lemma get_merge_other info d (file : string) :
  file <> filename info -> Dict.get file (merge info d) = Dict.get file d.
Proof.
  intros H.
  now rewrite merge_unfold, DictFacts.get_update_other,
    DictFacts.get_setdefault_other.
Qed.

Lemma assign_other (t : datetime) (props : Dict.t string)
    (file_data : Dict.t (DatedValue datetime)) (key : string) :
  Dict.get key props = None ->
  Dict.get key (assign t props file_data) = Dict.get key file_data.
Proof.
  unfold assign. revert file_data.
  induction props as [|[k v] props IH]; intros file_data; simpl; [reflexivity|].
  destruct (k =? key)%string eqn:E; [discriminate|]. intros H.
  rewrite (IH _ H). apply DictFacts.get_set_other.
  apply String.eqb_neq. now rewrite String.eqb_sym.
Qed.

Lemma assign_hit (t : datetime) (props : Dict.t string)
    (file_data : Dict.t (DatedValue datetime)) (key v : string) :
  NoDup (Dict.keys props) ->
  Dict.get key props = Some v ->
  Dict.get key (assign t props file_data)
  = Some {| value := v; assigned := t |}.
Proof.
  unfold assign. intros Hnd. revert file_data.
  induction props as [|[k0 v0] props IH]; intros file_data; simpl; [discriminate|].
  inversion Hnd as [|? ? Hnotin Hnd']; subst.
  destruct (k0 =? key)%string eqn:E.
  - apply String.eqb_eq in E. subst k0. intros [= ->].
    assert (Hnone : Dict.get key props = None).
    { destruct (Dict.get key props) eqn:G; [|reflexivity].
      exfalso. apply Hnotin. eapply DictFacts.get_In_keys, G. }
    change (Dict.get key (assign t props
              (Dict.set key {| value := v; assigned := t |} file_data))
            = Some {| value := v; assigned := t |}).
    rewrite (assign_other _ _ _ _ Hnone). apply DictFacts.get_set_same.
  - intros H. now apply IH.
Qed.

(** A batch that assigns [key] of its object sets the entry. *)
Lemma entry_merge_hit info d (key v : string) :
  NoDup (Dict.keys (properties info)) ->
  Dict.get key (properties info) = Some v ->
  entry (filename info) key (merge info d)
  = Some {| value := v; assigned := time info |}.
Proof.
  intros Hnd Hg. unfold entry. rewrite get_merge_same.
  now apply assign_hit.
Qed.

(** A batch for another object, or one that does not assign [key],
    leaves the entry as it is. *)
Lemma entry_merge_keep info d (file key : string) :
  (filename info = file -> Dict.get key (properties info) = None) ->
  entry file key (merge info d) = entry file key d.
Proof.
  intros H. unfold entry.
  destruct (String.eqb_spec file (filename info)) as [->|Hne].
  - rewrite get_merge_same, assign_other by now apply H.
    now destruct (Dict.get (filename info) d).
  - now rewrite get_merge_other.
Qed.

Lemma entry_replay_keep (infos : list (MetaInformation datetime)) d
    (file key : string) :
  (forall info, In info infos -> filename info = file ->
                Dict.get key (properties info) = None) ->
  entry file key (replay infos d) = entry file key d.
Proof.
  revert d. induction infos as [|info infos IH]; intros d H; [reflexivity|].
  cbn [replay fold_left]. change (fold_left _ infos ?x) with (replay infos x).
  rewrite IH by (intros; apply H; [now right | assumption]).
  apply entry_merge_keep. apply H. now left.
Qed.

Lemma data_add_all (infos : list (MetaInformation datetime)) me :
  data (add_all infos me) = replay infos (data me).
Proof.
  revert me. induction infos as [|info infos IH]; intros me; [reflexivity|].
  cbn [add_all replay fold_left].
  change (fold_left _ infos ?x) with (add_all infos x) at 1.
  now rewrite IH.
Qed.

Lemma replay_app (a b : list (MetaInformation datetime)) d :
  replay (a ++ b) d = replay b (replay a d).
Proof. unfold replay. apply fold_left_app. Qed.

Lemma keys_replay (infos : list (MetaInformation datetime)) d :
  Dict.keys (replay infos d) = fold_left note (map filename infos) (Dict.keys d).
Proof.
  revert d. induction infos as [|info infos IH]; intros d; [reflexivity|].
  cbn [replay fold_left map]. change (fold_left _ infos ?x) with (replay infos x).
  now rewrite IH, keys_merge.
Qed.

Lemma keys_load_line (line : string) st st' :
  load_line line st = inr st' ->
  Dict.keys (l_data st')
  = fold_left note (header_name line) (Dict.keys (l_data st)).
Proof.
  unfold load_line, header_name.
  destruct (Str.startswith "@" line).
  - destruct (Str.split "@" _) as [|a [|b [|c parts]]]; simpl; try discriminate.
    destruct (fromisoformat b); [|discriminate].
    intros [= <-]. simpl. apply DictFacts.keys_setdefault.
  - destruct (unpack2 _) as [e|[key val]]; [discriminate|].
    destruct (current_dict st), (file_time st); try discriminate.
    intros [= <-]. simpl. apply DictFacts.keys_update.
Qed.

Lemma keys_load_lines (lines : list string) st st' :
  load_lines lines st = inr st' ->
  Dict.keys (l_data st')
  = fold_left note (header_names lines) (Dict.keys (l_data st)).
Proof.
  revert st. induction lines as [|l lines IH]; intros st; simpl.
  - now intros [= <-].
  - destruct (load_line l st) as [e|st1] eqn:E; [discriminate|].
    intros H. unfold header_names in *. rewrite fold_left_app.
    rewrite (IH _ H). now rewrite (keys_load_line _ _ _ E).
Qed.

End Merge.

(** ** Queries *)

Section Queries.

Context {datetime : Type} {DT : DateTime datetime}.
Implicit Types (info : MetaInformation datetime) (me : MetaFile datetime)
  (w : World datetime).

Lemma get_entry (file key : string) me :
  get file key me = entry file key (data me).
Proof. reflexivity. Qed.

Lemma print_all (objs : list string) (f : string -> pyobj datetime) w :
  for_each objs (fun o => print (f o)) w
  = (inr tt, {| fs := fs w; stdout := (stdout w ++ map f objs)%list |}).
Proof.
  revert w. induction objs as [|o objs IH]; intros w.
  - simpl. unfold ret. rewrite List.app_nil_r. now destruct w.
  - cbn [for_each map]. unfold bind at 1. unfold print at 1.
    rewrite IH. cbn [fs stdout]. now rewrite <- List.app_assoc.
Qed.

Lemma main_list_prints (p default : string) (fs0 : FS)
    (out : list (pyobj datetime)) me :
  MetaFile_init p fs0 = (inr me, fs0) ->
  main_list p default {| fs := fs0; stdout := out |}
  = (inr tt, {| fs := fs0;
                stdout := (out ++ map (list_line me default) (files me))%list |}).
Proof.
  intros H. unfold main_list. unfold bind at 1. unfold on_fs at 1.
  cbn [fs stdout]. rewrite H.
  exact (print_all (files me) (list_line me default) {| fs := fs0; stdout := out |}).
Qed.

(** After a successful load the [get] branch prints one object per
    item and does not raise: the default for an item that is not
    there, the [DatedValue] itself for one that is. *)
Lemma main_get_prints (p name default : string) (items : list string)
    (fs0 : FS) (out : list (pyobj datetime)) me :
  MetaFile_init p fs0 = (inr me, fs0) ->
  main_get p name items default {| fs := fs0; stdout := out |}
  = (inr tt,
     {| fs := fs0;
        stdout :=
          (out ++ map (fun item => get_or_default (get name item me) default)
                      items)%list |}).
Proof.
  intros H. unfold main_get. unfold bind at 1. unfold on_fs at 1.
  cbn [fs stdout]. rewrite H.
  exact (print_all items
           (fun item => get_or_default (get name item me) default)
           {| fs := fs0; stdout := out |}).
Qed.

Lemma get_miss_yields_default (name item default : string) me :
  get name item me = None ->
  get_or_default (get name item me) default = PStr default.
Proof. now intros ->. Qed.

Lemma get_unknown_object (name item : string) me :
  Dict.get name (data me) = None -> get name item me = None.
Proof. unfold get. now intros ->. Qed.

Lemma files_init (p : string) (fs0 : FS) me :
  MetaFile_init p fs0 = (inr me, fs0) ->
  files me = first_seen (header_names (record_lines p fs0)).
Proof.
  intros H. unfold record_lines.
  destruct (init_success _ _ _ _ H) as [_ [(cr & E & ->)|(c & w' & st & E & Hl & ->)]];
    rewrite E; [reflexivity|].
  unfold files. cbn [data]. now rewrite (keys_load_lines _ _ _ Hl).
Qed.

(** C8: the names [files] returns are the object names of the
    record's header lines followed by those of the batches added
    since, each at the place where it occurs first; and the [list]
    branch of [main] prints, for each name of the loaded store in that
    order, the name with the value of its [description] entry, or with
    the default when it has none. *)
Theorem list_follows_first_appearance (p default : string) (fs0 : FS)
    (out : list (pyobj datetime)) me :
  MetaFile_init p fs0 = (inr me, fs0) ->
  (forall infos,
     files (add_all infos me)
     = first_seen (header_names (record_lines p fs0) ++ map filename infos))
  /\ main_list p default {| fs := fs0; stdout := out |}
     = (inr tt,
        {| fs := fs0;
           stdout :=
             (out ++ map (fun file =>
                            PStr (file ++ TAB
                                  ++ match get file "description" me with
                                     | Some d => value d
                                     | None => default
                                     end))
                         (first_seen (header_names (record_lines p fs0))))%list |}).
Proof.
  intros H. split.
  - intros infos. unfold files, first_seen.
    rewrite data_add_all, keys_replay, fold_left_app.
    f_equal. apply (files_init _ _ _ H).
  - rewrite (main_list_prints _ _ _ _ _ H), (files_init _ _ _ H).
    reflexivity.
Qed.

(** C10: a batch without properties makes its object known: the name
    is among [files], the object's own entries are what they were (none
    for a new object, for which the [list] loop prints the default),
    and a [write] of that batch alone appends its header line and
    nothing else (to a record that is there, or to the one it
    creates). *)
Theorem empty_batch_registers_object info me :
  properties info = [] ->
  In (filename info) (files (add_information info me))
  /\ Dict.get (filename info) (data (add_information info me))
     = Some match Dict.get (filename info) (data me) with
            | Some file_data => file_data
            | None => []
            end
  /\ (forall default,
        Dict.get (filename info) (data me) = None ->
        list_line (add_information info me) default (filename info)
        = PStr (filename info ++ TAB ++ default))
  /\ (forall (fs0 : FS) (c : string) (r : bool),
        new_information me = [] ->
        fs0 (path me) = Regular c r true ->
        exists fs1,
          write (add_information info me, fs0)
          = (inr tt, (flushed (add_information info me), fs1))
          /\ fs1 (path me)
             = Regular (c ++ "@" ++ filename info ++ "@"
                          ++ isoformat (time info) ++ NL) r true)
  /\ (forall (fs0 : FS),
        new_information me = [] ->
        fs0 (path me) = Missing true ->
        exists fs1,
          write (add_information info me, fs0)
          = (inr tt, (flushed (add_information info me), fs1))
          /\ fs1 (path me)
             = Regular ("@" ++ filename info ++ "@"
                          ++ isoformat (time info) ++ NL) true true).
Proof.
  intros Hp.
  assert (Hget : Dict.get (filename info) (data (add_information info me))
                 = Some match Dict.get (filename info) (data me) with
                        | Some file_data => file_data
                        | None => []
                        end).
  { cbn [add_information data]. rewrite get_merge_same, Hp. reflexivity. }
  repeat split.
  - eapply DictFacts.get_In_keys, Hget.
  - exact Hget.
  - intros default Hnew. unfold list_line, get. rewrite Hget, Hnew.
    reflexivity.
  - intros fs0 c r Hn Hfs.
    destruct (write_regular (add_information info me) fs0 c r)
      as (fs1 & Hw & [(c' & r' & w' & H0 & H1) _]).
    + cbn [add_information new_information]. now destruct (new_information me).
    + exact Hfs.
    + exists fs1. split; [exact Hw|].
      cbn [add_information path new_information] in H0, H1.
      rewrite Hfs in H0. injection H0 as <- <- <-.
      rewrite H1, Hn. unfold render, render_batch.
      cbn [List.app map join]. rewrite Hp. cbn [map join].
      now rewrite !StrFacts.app_nil_r.
  - intros fs0 Hn Hfs.
    destruct (write_missing (add_information info me) fs0)
      as (fs1 & Hw & H1 & _).
    + cbn [add_information new_information]. now destruct (new_information me).
    + exact Hfs.
    + exists fs1. split; [exact Hw|].
      cbn [add_information path new_information] in H1.
      rewrite H1, Hn. unfold render, render_batch.
      cbn [List.app map join]. rewrite Hp. cbn [map join].
      now rewrite !StrFacts.app_nil_r.
Qed.

End Queries.

(** ** Which assignment is current, and what a reload sees *)

Section History.

Context {datetime : Type} {DT : DateTime datetime}.
Implicit Types (info : MetaInformation datetime) (me : MetaFile datetime).

Lemma init_rendered (p : string) (fs0 : FS) (w : bool)
    (hist : list (MetaInformation datetime)) :
  Forall well_formed hist ->
  fs0 p = Regular (render hist) true w ->
  exists me, MetaFile_init p fs0 = (inr me, fs0)
             /\ data me = replay hist [].
Proof.
  intros Hwf Hfs. rewrite (init_regular _ _ _ _ Hfs).
  destruct (load_render hist loop_start Hwf) as (st & -> & Hd).
  eexists. split; [reflexivity | exact Hd].
Qed.

(** C1, as the code has it: timestamps are stored, never compared.
    Take a record written from well-formed batches [hist] and the
    batches [pend] added since.  If [b] is one of them, assigns [v] to
    [key], and no batch after [b] in that sequence assigns [key] of the
    same object, then [get] returns [v] with the timestamp of [b]:
    the batch applied last decides, in file order and then in the
    order of the adds. *)
Theorem last_applied_assignment_wins (p : string) (fs0 : FS) (w : bool)
    (hist pend pre post : list (MetaInformation datetime))
    (b : MetaInformation datetime) (key v : string) :
  Forall well_formed hist ->
  fs0 p = Regular (render hist) true w ->
  (hist ++ pend = pre ++ b :: post)%list ->
  NoDup (Dict.keys (properties b)) ->
  Dict.get key (properties b) = Some v ->
  (forall b', In b' post -> filename b' = filename b ->
              Dict.get key (properties b') = None) ->
  exists me,
    MetaFile_init p fs0 = (inr me, fs0)
    /\ get (filename b) key (add_all pend me)
       = Some {| value := v; assigned := time b |}.
Proof.
  intros Hwf Hfs Hsplit Hnd Hv Hpost.
  destruct (init_rendered p fs0 w hist Hwf Hfs) as (me & Hi & Hd).
  exists me. split; [exact Hi|].
  rewrite get_entry, data_add_all, Hd, <- replay_app, Hsplit.
  rewrite replay_app. cbn [replay fold_left].
  change (fold_left _ post ?x) with (replay post x).
  rewrite entry_replay_keep by exact Hpost.
  now apply entry_merge_hit.
Qed.

(** C2, with what the line format needs: let a store be loaded from a
    record that is absent, empty or ends in a line feed, and let a
    well-formed batch be added and flushed (no line end in the object
    name, the keys and the values, no ['@'] in the object name and
    none at the start of a key, no ['='] in a key, a timestamp whose
    text is read back as that timestamp).  Then a fresh store loaded
    from the same path has the [data] the first store had after the
    add. *)
Theorem reload_after_flush (p : string) (fs0 fs1 : FS) me me1 info :
  MetaFile_init p fs0 = (inr me, fs0) ->
  (forall c r w, fs0 p = Regular c r w -> newline_terminated c = true) ->
  well_formed info ->
  write (add_information info me, fs0) = (inr tt, (me1, fs1)) ->
  exists me2,
    MetaFile_init p fs1 = (inr me2, fs1)
    /\ data me2 = data (add_information info me).
Proof.
  intros Hi Hnl Hwf Hw.
  assert (Hne : new_information (add_information info me) <> []).
  { cbn [add_information new_information]. now destruct (new_information me). }
  destruct (init_success _ _ _ _ Hi)
    as [_ [(cr & E & ->)|(c & w & st & E & Hl & ->)]].
  - (* no record yet *)
    destruct cr.
    + destruct (write_missing (add_information info (fresh p)) fs0 Hne E)
        as (fs' & Hw' & Hc & _).
      rewrite Hw' in Hw. injection Hw as _ <-.
      cbn [add_information new_information fresh List.app path] in Hc.
      destruct (init_rendered p fs' true [info]) as (me2 & Hi2 & Hd2);
        [now constructor | exact Hc |].
      exists me2. split; [exact Hi2 | exact Hd2].
    + rewrite (write_unopenable _ fs0 (OSError "No such file or directory") Hne)
        in Hw; [discriminate|].
      unfold open_append. cbn [add_information fresh path]. now rewrite E.
  - (* a record that was loaded *)
    destruct w.
    + destruct (write_regular _ fs0 c true Hne E)
        as (fs' & Hw' & [(c' & r' & w' & H0 & H1) _]).
      rewrite Hw' in Hw. injection Hw as _ <-.
      cbn [add_information new_information path List.app] in H0, H1.
      rewrite E in H0. injection H0 as <- <- <-.
      rewrite (init_regular _ _ _ _ H1).
      rewrite StrFacts.readlines_app by (eapply Hnl, E).
      rewrite load_lines_app, Hl.
      destruct (load_render [info] st) as (st' & -> & Hd);
        [now constructor|].
      eexists. split; [reflexivity|]. exact Hd.
    + rewrite (write_unopenable _ fs0 (OSError "Permission denied") Hne)
        in Hw; [discriminate|].
      unfold open_append. cbn [add_information path]. now rewrite E.
Qed.

End History.

(** ** The statements at work on sample records *)

Module Runs.

Import Naive Sample.

Lemma well_formed_early : well_formed early.
Proof. repeat split; vm_compute; reflexivity. Qed.

Lemma well_formed_late : well_formed late.
Proof. repeat split; vm_compute; reflexivity. Qed.

Lemma well_formed_described : well_formed described.
Proof. repeat split; vm_compute; reflexivity. Qed.

Example load_record_text :
  MetaFile_init annovate_path (with_file record_text)
  = (inr loaded, with_file record_text).
Proof. reflexivity. Qed.

Example record_text_is_rendered :
  render [early; {| filename := "results.csv"; time := noon;
                    properties := [("description", "Cleaned up data")] |};
          late]
  = record_text.
Proof. reflexivity. Qed.

(** C1, refuted as stated: the batch with the later timestamp is added
    first and the one with the earlier timestamp second; [get] returns
    the value of the earlier timestamp. *)
Lemma later_timestamp_loses_when_added_first :
  ltb (time early) (time late) = true
  /\ Dict.get "infra_correction" (properties late) = Some "9.0"
  /\ get "plot.png" "infra_correction" late_then_early
     = Some {| value := "8.2"; assigned := noon |}
  /\ option_map value (get "plot.png" "infra_correction" late_then_early)
     <> Some "9.0".
Proof. repeat split. discriminate. Qed.

(** The same with the later timestamp in the record and the earlier
    one added on top. *)
Example later_timestamp_in_record_loses :
  exists me,
    MetaFile_init annovate_path (with_file (render [late]))
    = (inr me, with_file (render [late]))
    /\ get "plot.png" "infra_correction" me
       = Some {| value := "9.0"; assigned := evening |}
    /\ get "plot.png" "infra_correction" (add_information early me)
       = Some {| value := "8.2"; assigned := noon |}.
Proof. eexists. repeat split. Qed.

Lemma last_applied_assignment_wins_witness :
  exists me,
    MetaFile_init annovate_path (with_file (render [late]))
    = (inr me, with_file (render [late]))
    /\ get "plot.png" "infra_correction" (add_all [early] me)
       = Some {| value := "8.2"; assigned := noon |}.
Proof.
  apply (last_applied_assignment_wins annovate_path
           (with_file (render [late])) true [late] [early] [late] []
           early "infra_correction" "8.2").
  - constructor; [|constructor]. repeat split; vm_compute; reflexivity.
  - reflexivity.
  - reflexivity.
  - constructor; [intros []|constructor].
  - reflexivity.
  - intros b' [].
Defined.

(** C2, refuted as stated: the object name has no ['@'], the key has
    no ['='], the value has a line feed in it; it is written as two
    lines and read back as two properties. *)
Lemma value_of_two_lines_is_not_reloaded :
  Str.contains "@" (filename two_lines) = false
  /\ forallb (fun kv => negb (Str.contains "=" (fst kv)))
       (properties two_lines) = true
  /\ fst (write (with_two_lines, empty_fs)) = inr tt
  /\ get "plot.png" "origin" with_two_lines
     = Some {| value := "first" ++ NL ++ "second=2"; assigned := noon |}
  /\ exists me2,
       MetaFile_init annovate_path after_two_lines = (inr me2, after_two_lines)
       /\ get "plot.png" "origin" me2
          = Some {| value := "first"; assigned := noon |}
       /\ get "plot.png" "second" me2
          = Some {| value := "2"; assigned := noon |}
       /\ data me2 <> data with_two_lines.
Proof.
  repeat split. eexists. repeat split. discriminate.
Qed.

(** Two more ways out of the line format.  A key that starts with ['@']
    is written as a line that load takes for a header. *)
Example key_with_at_is_not_reloaded :
  fst (write (add_information at_key (fresh annovate_path), empty_fs)) = inr tt
  /\ fst (MetaFile_init (datetime := datetime) annovate_path
           (snd (snd (write (add_information at_key (fresh annovate_path),
                             empty_fs)))))
     = inl (ValueError "not enough values to unpack (expected 2, got 1)").
Proof. split; reflexivity. Qed.

(** After a record whose last line has no line end, the header of the
    next batch lands on that line and becomes part of its value. *)
Example unterminated_record_is_not_reloaded :
  exists me me2,
    MetaFile_init annovate_path (with_file unterminated_text)
    = (inr me, with_file unterminated_text)
    /\ fst (write (add_information described me, with_file unterminated_text))
       = inr tt
    /\ fst (MetaFile_init annovate_path
             (snd (snd (write (add_information described me,
                               with_file unterminated_text)))))
       = inr me2
    /\ get "results.csv" "description" (add_information described me)
       = Some {| value := "Cleaned up data"; assigned := noon |}
    /\ get "results.csv" "description" me2 = None
    /\ get "plot.png" "infra_correction" me2
       = Some {| value := "8.2@results.csv@2021-05-01T12:00:00";
                 assigned := noon |}.
Proof. do 2 eexists. repeat split. Qed.

Lemma reload_after_flush_witness :
  exists me2,
    MetaFile_init annovate_path after_described = (inr me2, after_described)
    /\ data me2 = data with_described.
Proof.
  apply (reload_after_flush annovate_path (with_file record_text)
           after_described loaded (flushed with_described) described).
  - reflexivity.
  - intros c r w H. vm_compute in H. injection H as <- _ _. reflexivity.
  - repeat split; vm_compute; reflexivity.
  - reflexivity.
Defined.

Lemma orphan_property_line_is_fatal_witness :
  exists msg,
    MetaFile_init (datetime := datetime) annovate_path (with_file orphan_text)
    = (inl (ValueError msg), with_file orphan_text).
Proof.
  apply (orphan_property_line_is_fatal annovate_path (with_file orphan_text)
           orphan_text true
           ("description=Cleaned up data" ++ NL)
           ["@results.csv@2021-05-01T12:00:00" ++ NL]);
    reflexivity.
Defined.

Lemma line_without_equals_is_fatal_witness :
  exists msg,
    MetaFile_init (datetime := datetime) annovate_path
      (with_file blank_line_text)
    = (inl (ValueError msg), with_file blank_line_text).
Proof.
  apply (line_without_equals_is_fatal annovate_path
           (with_file blank_line_text) blank_line_text true NL).
  - reflexivity.
  - vm_compute. right. right. left. reflexivity.
  - reflexivity.
  - reflexivity.
Defined.

Lemma load_is_read_only_witness :
  MetaFile_init (datetime := datetime) annovate_path empty_fs
  = (inr (fresh annovate_path), empty_fs)
  /\ snd (MetaFile_init (datetime := datetime) annovate_path empty_fs)
       annovate_path
     = Missing true.
Proof.
  apply (proj2 (load_is_read_only annovate_path empty_fs) true).
  reflexivity.
Defined.

Lemma write_open_failure_keeps_pending_witness :
  write (add_information early (fresh annovate_path), no_directory)
  = (inl (OSError "No such file or directory"),
     (add_information early (fresh annovate_path), no_directory))
  /\ exists msg, OSError "No such file or directory" = OSError msg.
Proof.
  apply (write_open_failure_keeps_pending
           (add_information early (fresh annovate_path)) no_directory
           (OSError "No such file or directory")).
  - discriminate.
  - reflexivity.
Defined.

Lemma write_nothing_pending_witness :
  write (loaded, with_file record_text)
  = (inr tt, (loaded, with_file record_text)).
Proof.
  apply (write_nothing_pending loaded (with_file record_text)).
  reflexivity.
Defined.

Lemma list_follows_first_appearance_witness :
  (forall infos,
     files (add_all infos loaded)
     = first_seen (["plot.png"; "results.csv"; "plot.png"]
                   ++ map filename infos))
  /\ main_list annovate_path "-"
       {| fs := with_file record_text; stdout := [] |}
     = (inr tt,
        {| fs := with_file record_text;
           stdout := [PStr ("plot.png" ++ TAB ++ "-");
                      PStr ("results.csv" ++ TAB ++ "Cleaned up data")] |}).
Proof.
  apply (list_follows_first_appearance annovate_path "-"
           (with_file record_text) [] loaded).
  reflexivity.
Defined.

Example files_after_adds :
  files (add_all [bare; early] loaded) = ["plot.png"; "results.csv"; "notes.txt"].
Proof. reflexivity. Qed.

Lemma empty_batch_registers_object_witness :
  properties bare = []
  /\ In "notes.txt" (files (add_information bare loaded))
  /\ Dict.get "notes.txt" (data (add_information bare loaded)) = Some [].
Proof.
  split; [reflexivity|].
  destruct (empty_batch_registers_object bare loaded eq_refl)
    as (Hin & Hget & _).
  split; [exact Hin | exact Hget].
Defined.

(** C5, where the code departs from it: with [infra_correction=8.2]
    recorded for [plot.png], the [get] branch of [main] hands [print]
    the [DatedValue] object, not the string ["8.2"] it holds; an item
    that is not recorded does give the default. *)
Theorem get_prints_the_dated_value :
  stdout
    (snd (main_get annovate_path "plot.png" ["infra_correction"; "origin"] "foo"
            {| fs := with_file (render [early]); stdout := [] |}))
  = [PDatedValue {| value := "8.2"; assigned := noon |}; PStr "foo"]
  /\ PDatedValue {| value := "8.2"; assigned := noon |} <> PStr "8.2".
Proof. split; [reflexivity | discriminate]. Qed.

End Runs.

(** * Further properties *)

(** ** Flushing, in general *)

Section FlushMore.

Context {datetime : Type} {DT : DateTime datetime}.
Implicit Types (info : MetaInformation datetime) (me : MetaFile datetime).

Lemma write_idle me (fs0 : FS) :
  new_information me = [] -> write (me, fs0) = (inr tt, (flushed me, fs0)).
Proof.
  intros H. unfold write, bind, self, ret, set_new_information. cbn [fst snd].
  now rewrite H.
Qed.

Lemma flushed_idle me : new_information me = [] -> flushed me = me.
Proof. destruct me as [p d n]. unfold flushed. simpl. now intros ->. Qed.

(** The ways a [write] can end well. *)
Lemma write_success me me' (fs0 fs1 : FS) :
  write (me, fs0) = (inr tt, (me', fs1)) ->
  me' = flushed me
  /\ ((new_information me = [] /\ fs1 = fs0)
      \/ (new_information me <> []
          /\ ((exists c r, fs0 (path me) = Regular c r true
                           /\ appended (path me) (render (new_information me)) fs0 fs1)
              \/ (fs0 (path me) = Missing true
                  /\ fs1 (path me) = Regular (render (new_information me)) true true
                  /\ forall q, q <> path me -> fs1 q = fs0 q)))).
Proof.
  intros Hw.
  destruct (new_information me) as [|i l] eqn:E.
  - rewrite (write_idle _ _ E) in Hw. injection Hw as <- <-.
    split; [reflexivity | left; now split].
  - assert (Hne : new_information me <> []) by (rewrite E; discriminate).
    destruct (fs0 (path me)) as [[|]| |c r [|]] eqn:Ef.
    + destruct (write_missing me fs0 Hne Ef) as (fs' & Hw' & Hc & Ho).
      rewrite Hw' in Hw. injection Hw as <- <-.
      split; [reflexivity|]. right. split; [discriminate|]. right.
      rewrite <- E. now repeat split.
    + rewrite (write_unopenable me fs0 (OSError "No such file or directory") Hne)
        in Hw; [discriminate|].
      unfold open_append. now rewrite Ef.
    + rewrite (write_unopenable me fs0 (OSError "Is a directory") Hne)
        in Hw; [discriminate|].
      unfold open_append. now rewrite Ef.
    + destruct (write_regular me fs0 c r Hne Ef) as (fs' & Hw' & Ha).
      rewrite Hw' in Hw. injection Hw as <- <-.
      split; [reflexivity|]. right. split; [discriminate|]. left.
      exists c, r. rewrite <- E. now split.
    + rewrite (write_unopenable me fs0 (OSError "Permission denied") Hne)
        in Hw; [discriminate|].
      unfold open_append. now rewrite Ef.
Qed.

(** X1: [write] only ever appends.  When it returns, a record that was
    there holds its old text followed by the pending batches, header
    line then property lines, in the order they were added; a record
    that was not there holds just those; no other path has changed; the
    store keeps its [path] and [data] and has nothing pending. *)
Theorem write_appends_pending me me' (fs0 fs1 : FS) :
  write (me, fs0) = (inr tt, (me', fs1)) ->
  new_information me' = [] /\ data me' = data me /\ path me' = path me
  /\ (forall c r w,
        fs0 (path me) = Regular c r w ->
        fs1 (path me)
        = Regular (c ++ render (new_information me)) r w)
  /\ (forall creatable,
        fs0 (path me) = Missing creatable ->
        fs1 (path me)
        = match new_information me with
          | [] => Missing creatable
          | pending => Regular (render pending) true true
          end)
  /\ (forall q, q <> path me -> fs1 q = fs0 q).
Proof.
  intros Hw. destruct (write_success _ _ _ _ Hw) as [-> Hcase].
  repeat split.
  - intros c r w Hfs.
    destruct Hcase as [[E ->]|[Hne [(c' & r' & Hfs' & [(c2 & r2 & w2 & H0 & H1) _])
                                   |[Hm _]]]].
    + rewrite E, Hfs. cbn. now rewrite StrFacts.app_nil_r.
    + rewrite Hfs in H0. injection H0 as <- <- <-. exact H1.
    + congruence.
  - intros creatable Hfs.
    destruct Hcase as [[E ->]|[Hne [(c' & r' & Hfs' & _)|(Hm & Hc & _)]]].
    + now rewrite E.
    + congruence.
    + rewrite Hc. now destruct (new_information me).
  - intros q Hq.
    destruct Hcase as [[E ->]|[Hne [(c' & r' & Hfs' & [_ Ho])|(_ & _ & Ho)]]];
      [reflexivity | now apply Ho | now apply Ho].
Qed.

(** X2: a second [write] right after one that returned does nothing:
    the store and the file system stay as the first one left them. *)
Theorem write_again_is_idle me me' (fs0 fs1 : FS) :
  write (me, fs0) = (inr tt, (me', fs1)) ->
  write (me', fs1) = (inr tt, (me', fs1)).
Proof.
  intros Hw. destruct (write_success _ _ _ _ Hw) as [-> _].
  rewrite write_idle by reflexivity. reflexivity.
Qed.

End FlushMore.

(** ** The store under [add_information] *)

Section StoreMore.

Context {datetime : Type} {DT : DateTime datetime}.
Implicit Types (info : MetaInformation datetime) (me : MetaFile datetime)
  (st : loop_vars datetime) (d : Dict.t (Dict.t (DatedValue datetime))).

(** X3: what [get] returns after [add_information], for a batch whose
    properties are a dictionary: the new value with the batch's
    timestamp for a key the batch assigns to its object, and what it
    returned before for every other key and every other object. *)
Theorem get_after_add info me (file key : string) :
  NoDup (Dict.keys (properties info)) ->
  get file key (add_information info me)
  = if (file =? filename info)%string then
      match Dict.get key (properties info) with
      | Some v => Some {| value := v; assigned := time info |}
      | None => get file key me
      end
    else get file key me.
Proof.
  intros Hnd. rewrite !get_entry. cbn [add_information data].
  destruct (String.eqb_spec file (filename info)) as [->|Hne].
  - destruct (Dict.get key (properties info)) as [v|] eqn:E.
    + now apply entry_merge_hit.
    + apply entry_merge_keep. now intros _.
  - apply entry_merge_keep. intros H. congruence.
Qed.

Lemma note_keeps_NoDup (l : list string) (x : string) :
  NoDup l -> NoDup (note l x).
Proof.
  intros H. unfold note. destruct (existsb (String.eqb x) l) eqn:E; [exact H|].
  apply NoDup_app; [exact H | repeat constructor; intros [] |].
  intros y Hy [Hxy|[]]. subst y.
  assert (existsb (String.eqb x) l = true); [|congruence].
  apply existsb_exists. exists x. split; [exact Hy | apply String.eqb_refl].
Qed.

Lemma keys_set {V : Type} (k : string) (v : V) (dv : Dict.t V) :
  Dict.keys (Dict.set k v dv) = note (Dict.keys dv) k.
Proof.
  unfold note, Dict.keys. induction dv as [|[k' v'] dv IH]; [reflexivity|].
  cbn [Dict.set map fst existsb].
  rewrite (String.eqb_sym k k').
  destruct (k' =? k)%string; cbn [map fst orb]; [reflexivity|].
  rewrite IH. now destruct (existsb (String.eqb k) (map fst dv)).
Qed.

Lemma update_keeps_Forall {V : Type} (Q : V -> Prop) (k : string) (f : V -> V)
    (dv : Dict.t V) :
  (forall x, Q x -> Q (f x)) ->
  Forall (fun e => Q (snd e)) dv ->
  Forall (fun e => Q (snd e)) (Dict.update k f dv).
Proof.
  intros Hf H. induction H as [|[k' v'] dv Hx Hd IH]; [constructor|].
  cbn [Dict.update]. destruct (k' =? k)%string; constructor;
    try assumption.
  cbn [snd] in *. now apply Hf.
Qed.

Lemma setdefault_well_keyed d (k : string) :
  well_keyed d -> well_keyed (Dict.setdefault k [] d).
Proof.
  intros [Hk Hf]. split.
  - rewrite DictFacts.keys_setdefault. now apply note_keeps_NoDup.
  - unfold Dict.setdefault.
    match goal with
    | |- context [match ?x with _ => _ end] => destruct x
    end; [exact Hf|].
    apply Forall_app. split; [exact Hf|]. repeat constructor.
Qed.

Lemma assignment_well_keyed d (file key : string) (dv : DatedValue datetime) :
  well_keyed d -> well_keyed (Dict.update file (Dict.set key dv) d).
Proof.
  intros [Hk Hf]. split.
  - now rewrite DictFacts.keys_update.
  - apply (update_keeps_Forall (fun x => NoDup (Dict.keys x))); [|exact Hf].
    intros x Hx. rewrite keys_set. now apply note_keeps_NoDup.
Qed.

Lemma merge_well_keyed info d : well_keyed d -> well_keyed (merge info d).
Proof.
  intros H. unfold merge.
  generalize (setdefault_well_keyed d (filename info) H).
  generalize (Dict.setdefault (filename info) [] d).
  induction (properties info) as [|kv props IH]; intros d0 H0; [exact H0|].
  cbn [fold_left]. apply IH. now apply assignment_well_keyed.
Qed.

Lemma load_line_well_keyed (line : string) st st' :
  load_line line st = inr st' -> well_keyed (l_data st) -> well_keyed (l_data st').
Proof.
  unfold load_line. intros H Hw.
  destruct (Str.startswith "@" line).
  - destruct (unpack2 _) as [e|[file_key time_str]]; [discriminate|].
    destruct (fromisoformat time_str); [|discriminate].
    injection H as <-. now apply setdefault_well_keyed.
  - destruct (unpack2 _) as [e|[key val]]; [discriminate|].
    destruct (current_dict st), (file_time st); try discriminate.
    injection H as <-. now apply assignment_well_keyed.
Qed.

Lemma load_lines_well_keyed (lines : list string) st st' :
  load_lines lines st = inr st' -> well_keyed (l_data st) -> well_keyed (l_data st').
Proof.
  revert st. induction lines as [|l lines IH]; intros st; simpl.
  - now intros [= <-].
  - destruct (load_line l st) as [e|st1] eqn:E; [discriminate|].
    intros H Hw. apply (IH _ H). eapply load_line_well_keyed; eassumption.
Qed.

Lemma replay_well_keyed (infos : list (MetaInformation datetime)) d :
  well_keyed d -> well_keyed (replay infos d).
Proof.
  revert d. induction infos as [|info infos IH]; intros d H; [exact H|].
  cbn [replay fold_left]. change (fold_left _ infos ?x) with (replay infos x).
  apply IH. now apply merge_well_keyed.
Qed.

(** X4: in a store that [MetaFile.__init__] built, and after any
    batches added to it, no object name occurs twice in [data] and no
    key occurs twice for an object: the parse and the merge keep one
    entry for each (object, key) pair. *)
Theorem loaded_store_is_well_keyed (p : string) (fs0 fs1 : FS) me
    (infos : list (MetaInformation datetime)) :
  MetaFile_init p fs0 = (inr me, fs1) ->
  well_keyed (data (add_all infos me)).
Proof.
  intros H. rewrite data_add_all. apply replay_well_keyed.
  destruct (init_success _ _ _ _ H) as [_ [(cr & _ & ->)|(c & w & st & _ & Hl & ->)]].
  - split; constructor.
  - cbn [data]. apply (load_lines_well_keyed _ _ _ Hl). split; constructor.
Qed.

Lemma note_extends (l : list string) (x : string) : exists l', note l x = (l ++ l')%list.
Proof.
  unfold note. destruct (existsb (String.eqb x) l).
  - exists []. now rewrite List.app_nil_r.
  - now exists [x].
Qed.

Lemma fold_note_extends (xs l : list string) :
  exists l', fold_left note xs l = (l ++ l')%list.
Proof.
  revert l. induction xs as [|x xs IH]; intros l.
  - exists []. simpl. now rewrite List.app_nil_r.
  - simpl. destruct (note_extends l x) as [l1 ->].
    destruct (IH (l ++ l1)%list) as [l2 ->].
    exists (l1 ++ l2)%list. now rewrite List.app_assoc.
Qed.

Lemma assign_keeps (t : datetime) (props : Dict.t string)
    (fd : Dict.t (DatedValue datetime)) (key : string) (dv : DatedValue datetime) :
  Dict.get key fd = Some dv ->
  exists dv', Dict.get key (assign t props fd) = Some dv'.
Proof.
  unfold assign. revert fd dv.
  induction props as [|[k v] props IH]; intros fd dv H; [now exists dv|].
  cbn [fold_left fst snd].
  destruct (String.eqb_spec key k) as [->|Hne].
  - eapply IH. apply DictFacts.get_set_same.
  - eapply IH. rewrite DictFacts.get_set_other by exact Hne. exact H.
Qed.

Lemma entry_merge_stays info d (file key : string) (dv : DatedValue datetime) :
  entry file key d = Some dv ->
  exists dv', entry file key (merge info d) = Some dv'.
Proof.
  unfold entry. intros H.
  destruct (String.eqb_spec file (filename info)) as [->|Hne].
  - rewrite get_merge_same.
    destruct (Dict.get (filename info) d) as [fd|]; [|discriminate].
    eapply assign_keeps, H.
  - rewrite get_merge_other by exact Hne. now exists dv.
Qed.

(** X5: adding batches never forgets anything and never reorders: the
    names [files] returned before are the first names it returns
    after, in the same order, and a pair that [get] found before is
    still found after. *)
Theorem adds_only_extend (infos : list (MetaInformation datetime)) me :
  (exists new_names, files (add_all infos me) = (files me ++ new_names)%list)
  /\ forall file key dv,
       get file key me = Some dv ->
       exists dv', get file key (add_all infos me) = Some dv'.
Proof.
  split.
  - unfold files. rewrite data_add_all, keys_replay. apply fold_note_extends.
  - intros file key dv. rewrite !get_entry, data_add_all.
    generalize (data me). clear me. revert dv.
    induction infos as [|info infos IH]; intros dv d H; [now exists dv|].
    cbn [replay fold_left]. change (fold_left _ infos ?x) with (replay infos x).
    destruct (entry_merge_stays info d file key dv H) as [dv1 H1].
    eapply IH, H1.
Qed.

End StoreMore.

(** ** Header lines that cannot be read *)

Section HeaderErrors.

Context {datetime : Type} {DT : DateTime datetime}.
Implicit Types (info : MetaInformation datetime) (me : MetaFile datetime)
  (st : loop_vars datetime).

Lemma split_nonempty (c : ascii) (s : string) : 1 <= List.length (Str.split c s).
Proof.
  induction s as [|x s IH]; simpl; [lia|].
  destruct (x =? c)%char; simpl; [lia|].
  destruct (Str.split c s); simpl in *; lia.
Qed.

Lemma split_counts (c : ascii) (s : string) :
  Str.contains c s = true -> 2 <= List.length (Str.split c s).
Proof.
  induction s as [|x s IH]; simpl; [discriminate|].
  destruct (x =? c)%char; simpl.
  - intros _. pose proof (split_nonempty c s). lia.
  - intros H. specialize (IH H). destruct (Str.split c s); simpl in *; lia.
Qed.

Lemma split_append (c : ascii) (a b : string) :
  List.length (Str.split c (a ++ String c b))
  = List.length (Str.split c a) + List.length (Str.split c b).
Proof.
  induction a as [|x a IH]; simpl.
  - now rewrite Ascii.eqb_refl.
  - destruct (x =? c)%char; simpl; [now rewrite IH|].
    pose proof (split_nonempty c a).
    destruct (Str.split c (a ++ String c b)), (Str.split c a); simpl in *; lia.
Qed.

Lemma unpack2_wrong_length (parts : list string) :
  List.length parts <> 2 -> exists msg, unpack2 parts = inl (ValueError msg).
Proof.
  destruct parts as [|a [|b [|c parts]]]; simpl; intros H;
    try (eexists; reflexivity).
  congruence.
Qed.

Lemma load_line_bad_header (line : string) st :
  Str.startswith "@" line = true ->
  (List.length (Str.split "@" (Str.rstrip LF (Str.drop1 line))) <> 2
   \/ exists file_key time_str,
        Str.split "@" (Str.rstrip LF (Str.drop1 line)) = [file_key; time_str]
        /\ fromisoformat time_str = None) ->
  exists msg, load_line line st = inl (ValueError msg).
Proof.
  intros Hs H. unfold load_line. rewrite Hs.
  destruct H as [Hlen|(file_key & time_str & -> & Ht)].
  - destruct (unpack2_wrong_length _ Hlen) as [msg ->]. now exists msg.
  - simpl. rewrite Ht. eexists; reflexivity.
Qed.

Lemma init_bad_line (p : string) (fs0 : FS) (c : string) (w : bool) (line : string) :
  fs0 p = Regular c true w ->
  In line (Str.readlines c) ->
  (forall st, exists e, load_line line st = inl e) ->
  exists msg, MetaFile_init p fs0 = (inl (ValueError msg), fs0).
Proof.
  intros Hfs Hin Hbad. rewrite (init_regular _ _ _ _ Hfs).
  destruct (load_lines_bad_line (Str.readlines c) line loop_start Hin Hbad)
    as [e He].
  rewrite He. destruct (load_lines_raises _ _ _ He) as [msg ->].
  now exists msg.
Qed.

(** X6: a record with a header line that does not consist of exactly
    two ['@']-separated parts after its first character, or whose
    second part [fromisoformat] rejects, cannot be loaded, wherever the
    line stands: [MetaFile.__init__] raises [ValueError] and returns no
    store. *)
Theorem malformed_header_is_fatal (p : string) (fs0 : FS) (c : string)
    (w : bool) (line : string) :
  fs0 p = Regular c true w ->
  In line (Str.readlines c) ->
  Str.startswith "@" line = true ->
  (List.length (Str.split "@" (Str.rstrip LF (Str.drop1 line))) <> 2
   \/ exists file_key time_str,
        Str.split "@" (Str.rstrip LF (Str.drop1 line)) = [file_key; time_str]
        /\ fromisoformat time_str = None) ->
  exists msg, MetaFile_init p fs0 = (inl (ValueError msg), fs0).
Proof.
  intros Hfs Hin Hs Hbad. apply (init_bad_line p fs0 c w line Hfs Hin).
  intros st. destruct (load_line_bad_header line st Hs Hbad) as [msg H].
  eexists; exact H.
Qed.

Lemma readlines_header info (rest : string) :
  Str.one_line (filename info) = true ->
  Str.one_line (isoformat (time info)) = true ->
  Str.readlines (header_line info ++ rest)
  = header_line info :: Str.readlines rest.
Proof.
  intros Hf Ht.
  apply StrFacts.one_line_spec in Hf as [Hf Hf'].
  apply StrFacts.one_line_spec in Ht as [Ht Ht'].
  rewrite header_line_shape at 1. rewrite StrFacts.app_assoc.
  unfold Str.readlines, NL. cbn [append].
  change (String "@" (?s ++ ?r)) with (String "@" s ++ r).
  rewrite StrFacts.lines_from_line.
  2:{ apply StrFacts.one_line_spec. simpl.
      rewrite !StrFacts.contains_app. simpl. now rewrite Hf, Hf', Ht, Ht'. }
  change ("" ++ ?x) with x. now rewrite <- header_line_shape.
Qed.

Lemma load_line_header_with_at info st :
  Str.one_line (filename info) = true ->
  Str.one_line (isoformat (time info)) = true ->
  Str.contains "@" (filename info) = true ->
  exists msg, load_line (header_line info) st = inl (ValueError msg).
Proof.
  intros Hf Ht Hat.
  apply StrFacts.one_line_spec in Hf as [Hf _].
  apply StrFacts.one_line_spec in Ht as [Ht _].
  apply load_line_bad_header.
  - now rewrite header_line_shape.
  - left. rewrite header_line_shape. cbn [append Str.drop1].
    rewrite StrFacts.rstrip_line.
    2:{ rewrite StrFacts.contains_app. simpl. now rewrite Hf, Ht. }
    rewrite split_append.
    pose proof (split_counts "@" (filename info) Hat).
    pose proof (split_nonempty "@" (isoformat (time info))).
    lia.
Qed.

(** X7: an object name with ['@'] in it spoils the record.  A [write]
    of one batch for such a name (on one line, like its timestamp) onto
    a newline-terminated record returns, and from then on
    [MetaFile.__init__] raises [ValueError] on that record. *)
Theorem at_sign_in_name_breaks_record me (fs0 : FS) (c : string) info :
  new_information me = [info] ->
  fs0 (path me) = Regular c true true ->
  newline_terminated c = true ->
  Str.one_line (filename info) = true ->
  Str.one_line (isoformat (time info)) = true ->
  Str.contains "@" (filename info) = true ->
  exists fs1 msg,
    write (me, fs0) = (inr tt, (flushed me, fs1))
    /\ MetaFile_init (path me) fs1 = (inl (ValueError msg), fs1).
Proof.
  intros Hp Hfs Hnl Hf Ht Hat.
  destruct (write_regular me fs0 c true) as (fs1 & Hw & [(c' & r' & w' & H0 & H1) _]).
  { rewrite Hp. discriminate. }
  { exact Hfs. }
  rewrite Hfs in H0. injection H0 as <- <- <-.
  rewrite Hp in H1.
  destruct (init_bad_line (path me) fs1 _ true (header_line info) H1) as [msg Hi].
  - rewrite StrFacts.readlines_app by exact Hnl.
    apply in_or_app. right. unfold render, render_batch. cbn [map join].
    rewrite StrFacts.app_assoc, readlines_header by assumption. now left.
  - intros st. destruct (load_line_header_with_at info st Hf Ht Hat) as [msg H].
    eexists; exact H.
  - exists fs1, msg. now split.
Qed.

Lemma load_line_with_newline (line : string) st :
  line <> "" -> Str.contains LF line = false ->
  load_line (line ++ NL) st = load_line line st.
Proof.
  intros Hne Hc. unfold load_line.
  destruct line as [|a line]; [congruence|].
  cbn [append Str.startswith Str.drop1].
  change (String a (line ++ NL)) with (String a line ++ NL).
  simpl in Hc. apply orb_false_iff in Hc as [Ha Hc].
  rewrite (StrFacts.rstrip_line line Hc).
  rewrite (StrFacts.rstrip_line (String a line)) by (simpl; now rewrite Ha, Hc).
  assert (H1 : Str.rstrip LF line = line).
  { clear -Hc. induction line as [|x l IH]; [reflexivity|].
    simpl in *. apply orb_false_iff in Hc as [Hx Hc]. rewrite (IH Hc).
    destruct l; [now rewrite Hx | reflexivity]. }
  assert (H2 : Str.rstrip LF (String a line) = String a line).
  { cbn [Str.rstrip]. rewrite H1. destruct line; [now rewrite Ha | reflexivity]. }
  now rewrite H1, H2.
Qed.

Lemma lines_with_final_newline (c cur : string) (f : bool) st :
  Str.endswith LF c = false ->
  (f = true -> cur = "") ->
  Str.contains LF cur = false ->
  (c = "" -> f = false -> cur <> "") ->
  load_lines (Str.lines_from cur f (c ++ NL)) st
  = load_lines (Str.lines_from cur f c) st.
Proof.
  revert cur f st. induction c as [|a c IH]; intros cur f st He Hf Hc Hn.
  - cbn [append NL Str.lines_from]. rewrite Ascii.eqb_refl.
    destruct f.
    + rewrite (Hf eq_refl). reflexivity.
    + specialize (Hn eq_refl eq_refl).
      destruct cur as [|x cur]; [congruence|].
      cbn [load_lines Str.lines_from].
      now rewrite load_line_with_newline.
  - assert (He' : Str.endswith LF c = false /\ (c = "" -> a <> LF)).
    { simpl in He. destruct c.
      - split; [reflexivity|]. intros _ ->. now rewrite Ascii.eqb_refl in He.
      - split; [exact He | discriminate]. }
    destruct He' as [He' Ha].
    cbn [append Str.lines_from].
    destruct (Ascii.eqb_spec a LF) as [->|Hna].
    + assert (Hcne : c <> "") by (intros E; now apply Ha).
      destruct f.
      * apply IH; try assumption; try reflexivity. congruence.
      * cbn [load_lines]. destruct (load_line (cur ++ NL) st); [reflexivity|].
        apply IH; try assumption; try reflexivity. congruence.
    + destruct (a =? CR)%char.
      * cbn [load_lines]. destruct (load_line (cur ++ NL) st); [reflexivity|].
        apply IH; try assumption; try reflexivity. discriminate.
      * apply IH; try assumption.
        -- discriminate.
        -- rewrite StrFacts.contains_app, Hc. simpl.
           apply Ascii.eqb_neq in Hna. now rewrite Hna.
        -- intros _ _. destruct cur; discriminate.
Qed.

(** X8: the line end of the last line is optional.  A record that is
    not empty and does not end in a line feed is loaded exactly like
    the same text with a line feed added: the same store, or the same
    exception. *)
Theorem final_newline_is_optional (p : string) (fs0 fs1 : FS) (c : string)
    (w w' : bool) :
  c <> "" ->
  Str.endswith LF c = false ->
  fs0 p = Regular c true w ->
  fs1 p = Regular (c ++ NL) true w' ->
  fst (MetaFile_init p fs1) = fst (MetaFile_init p fs0).
Proof.
  intros Hne He H0 H1.
  rewrite (init_regular _ _ _ _ H0), (init_regular _ _ _ _ H1). cbn [fst].
  unfold Str.readlines.
  rewrite lines_with_final_newline; try assumption; try reflexivity;
    try discriminate.
  intros E. congruence.
Qed.

End HeaderErrors.

(** ** Several batches at once *)

Section ReloadMore.

Context {datetime : Type} {DT : DateTime datetime}.
Implicit Types (info : MetaInformation datetime) (me : MetaFile datetime).

Lemma new_information_add_all (infos : list (MetaInformation datetime)) me :
  new_information (add_all infos me) = (new_information me ++ infos)%list.
Proof.
  revert me. induction infos as [|info infos IH]; intros me.
  - simpl. now rewrite List.app_nil_r.
  - cbn [add_all fold_left].
    change (fold_left _ infos ?x) with (add_all infos x).
    rewrite IH. cbn [add_information new_information].
    now rewrite <- List.app_assoc.
Qed.

Lemma path_add_all (infos : list (MetaInformation datetime)) me :
  path (add_all infos me) = path me.
Proof.
  revert me. induction infos as [|info infos IH]; intros me; [reflexivity|].
  cbn [add_all fold_left]. change (fold_left _ infos ?x) with (add_all infos x).
  now rewrite IH.
Qed.

Lemma init_path (p : string) (fs0 fs1 : FS) me :
  MetaFile_init p fs0 = (inr me, fs1) ->
  path me = p /\ new_information me = [].
Proof.
  intros H.
  destruct (init_success _ _ _ _ H) as [_ [(cr & _ & ->)|(c & w & st & _ & _ & ->)]];
    now split.
Qed.

(** A store loaded from a newline-terminated record, any number of
    well-formed batches added, one [write]: a reload sees the same
    [data]. *)
Lemma reload_general (p : string) (fs0 fs1 : FS) me me1
    (infos : list (MetaInformation datetime)) :
  MetaFile_init p fs0 = (inr me, fs0) ->
  (forall c r w, fs0 p = Regular c r w -> newline_terminated c = true) ->
  Forall well_formed infos ->
  write (add_all infos me, fs0) = (inr tt, (me1, fs1)) ->
  exists me2,
    MetaFile_init p fs1 = (inr me2, fs1)
    /\ data me2 = data (add_all infos me).
Proof.
  intros Hi Hnl Hwf Hw.
  destruct (init_path _ _ _ _ Hi) as [Hp Hn].
  destruct (write_success _ _ _ _ Hw) as [_ Hcase].
  rewrite new_information_add_all, path_add_all, Hn, Hp in Hcase.
  cbn [List.app] in Hcase.
  destruct Hcase as [[-> ->]|[_ [(c & r & Hfs & [(c' & r' & w' & H0 & H1) _])
                                |(Hm & Hc & _)]]].
  - exists me. split; [exact Hi | reflexivity].
  - rewrite Hfs in H0. injection H0 as <- <- <-.
    destruct (init_success _ _ _ _ Hi)
      as [_ [(cr & E & _)|(c0 & w0 & st & E & Hl & ->)]]; [congruence|].
    rewrite Hfs in E. injection E as Ec Er Ew. subst c0 r w0.
    rewrite (init_regular _ _ _ _ H1).
    rewrite StrFacts.readlines_app by (eapply Hnl, Hfs).
    rewrite load_lines_app, Hl.
    destruct (load_render infos st Hwf) as (st' & -> & Hd).
    eexists. split; [reflexivity|].
    cbn [data]. rewrite Hd, data_add_all. reflexivity.
  - destruct (init_success _ _ _ _ Hi)
      as [_ [(cr & E & ->)|(c0 & w0 & st & E & _)]]; [|congruence].
    destruct (init_rendered p fs1 true infos Hwf Hc) as (me2 & Hi2 & Hd2).
    exists me2. split; [exact Hi2|].
    rewrite Hd2, data_add_all. reflexivity.
Qed.

(** X9: the round trip for any number of batches.  Load a store from a
    record that is absent, empty or ends in a line feed; add well-formed
    batches, none or several; [write] once.  If the [write] returns, a
    fresh store loaded from the same path has the [data] of the first
    store. *)
Theorem reload_after_flush_of_several (p : string) (fs0 fs1 : FS) me me1
    (infos : list (MetaInformation datetime)) :
  MetaFile_init p fs0 = (inr me, fs0) ->
  (forall c r w, fs0 p = Regular c r w -> newline_terminated c = true) ->
  Forall well_formed infos ->
  write (add_all infos me, fs0) = (inr tt, (me1, fs1)) ->
  exists me2,
    MetaFile_init p fs1 = (inr me2, fs1)
    /\ data me2 = data (add_all infos me).
Proof. exact (reload_general p fs0 fs1 me me1 infos). Qed.

End ReloadMore.

(** ** [main] *)

Section MainMore.

Context {datetime : Type} {DT : DateTime datetime}.
Implicit Types (info : MetaInformation datetime) (me : MetaFile datetime)
  (w : World datetime) (pr : Process (datetime := datetime)).

Lemma on_fs_init (p : string) w :
  on_fs (MetaFile_init p) w = (fst (MetaFile_init p (fs w)), w).
Proof.
  unfold on_fs. pose proof (init_frame p (fs w)) as H.
  destruct (MetaFile_init p (fs w)) as [r fs']. simpl in *. subst fs'.
  now destruct w.
Qed.

Lemma main_get_run (p name default : string) (its : list string) w :
  main_get p name its default w
  = match fst (MetaFile_init p (fs w)) with
    | inl e => (inl e, w)
    | inr me =>
        (inr tt,
         {| fs := fs w;
            stdout :=
              (stdout w ++ map (fun item => get_or_default (get name item me) default)
                             its)%list |})
    end.
Proof.
  unfold main_get. unfold bind at 1. rewrite on_fs_init.
  destruct (fst (MetaFile_init p (fs w))) as [e|me]; [reflexivity|].
  apply (print_all its (fun item => get_or_default (get name item me) default)).
Qed.

Lemma main_list_run (p default : string) w :
  main_list p default w
  = match fst (MetaFile_init p (fs w)) with
    | inl e => (inl e, w)
    | inr me =>
        (inr tt,
         {| fs := fs w;
            stdout := (stdout w ++ map (list_line me default) (files me))%list |})
    end.
Proof.
  unfold main_list. unfold bind at 1. rewrite on_fs_init.
  destruct (fst (MetaFile_init p (fs w))) as [e|me]; [reflexivity|].
  apply (print_all (files me) (list_line me default)).
Qed.

Lemma main_set_run (p name : string) (its : list string) (now : datetime) w :
  main_set p name its now w
  = match fst (MetaFile_init p (fs w)) with
    | inl e => (inl e, w)
    | inr me =>
        match dict_of_items 0 its [] with
        | inl e => (inl e, w)
        | inr props =>
            call (add_information
                    {| filename := name; time := now; properties := props |} me)
                 write w
        end
    end.
Proof.
  unfold main_set. unfold bind at 1. rewrite on_fs_init.
  destruct (fst (MetaFile_init p (fs w))) as [e|me]; [reflexivity|].
  unfold bind, lift. now destruct (dict_of_items 0 its []).
Qed.

(** X10: only [set] writes.  Whatever the arguments and whatever the
    record looks like, [main] with another action leaves the file
    system as it was, whether it returns, raises or exits; and an
    action that is none of [get], [set], [list] prints nothing, writes
    one message to the standard error stream and exits with status 2. *)
Theorem only_set_writes (p name : string) (now : datetime)
    (args : Namespace) pr :
  action args <> "set" ->
  fs (world (snd (main p name now args pr))) = fs (world pr)
  /\ (action args <> "get" -> action args <> "list" ->
      main p name now args pr
      = (inr (SystemExit 2),
         {| world := world pr;
            stderr :=
              (stderr pr
               ++ [("Unsupported action: " ++ action args ++ NL)%string])%list |})).
Proof.
  intros Hset. unfold main.
  destruct (String.eqb_spec (action args) "get") as [Eg|Eg].
  - split; [|congruence].
    unfold bind, in_world. rewrite main_get_run.
    destruct (fst (MetaFile_init p (fs (world pr)))); reflexivity.
  - destruct (String.eqb_spec (action args) "set") as [Es|Es]; [congruence|].
    destruct (String.eqb_spec (action args) "list") as [El|El].
    + split; [|congruence].
      unfold bind, in_world. rewrite main_list_run.
      destruct (fst (MetaFile_init p (fs (world pr)))); reflexivity.
    + split; [reflexivity|]. intros _ _. reflexivity.
Qed.

(** X11: a record that cannot be loaded stops every action.  When
    [MetaFile.__init__] raises on the record, [main] with [get], [set]
    or [list] raises the same exception; nothing is printed and
    nothing is written: the error is not taken for an empty record. *)
Theorem load_failure_stops_main (p name : string) (now : datetime)
    (args : Namespace) pr (e : exn) :
  fst (MetaFile_init p (fs (world pr))) = inl e ->
  (action args = "get" \/ action args = "set" \/ action args = "list") ->
  main p name now args pr = (inl e, pr).
Proof.
  intros Hl Ha. unfold main.
  assert (Hpr : {| world := world pr; stderr := stderr pr |} = pr)
    by now destruct pr.
  destruct Ha as [->|[->| ->]]; cbn [String.eqb Ascii.eqb Bool.eqb];
    unfold bind, in_world.
  - now rewrite main_get_run, Hl, Hpr.
  - now rewrite main_set_run, Hl, Hpr.
  - now rewrite main_list_run, Hl, Hpr.
Qed.

Lemma dict_of_items_bad (its : list string) (item : string) (i : nat)
    (d : Dict.t string) :
  In item its -> Str.contains "=" item = false ->
  exists msg, dict_of_items i its d = inl (ValueError msg).
Proof.
  intros Hin Hc. revert i d.
  induction its as [|x its IH]; intros i d; [contradiction|].
  cbn [dict_of_items].
  destruct Hin as [->|Hin].
  - rewrite (StrFacts.split1_absent _ _ Hc). eexists; reflexivity.
  - destruct (Str.split1 "=" x) as [|a [|b [|c l]]];
      try (eexists; reflexivity).
    now apply IH.
Qed.

(** X12: [set] takes all its items or none.  If one item has no ['=']
    the action raises ([ValueError], unless the load has raised
    already) before anything is written or printed, also when other
    items are fine. *)
Theorem set_rejects_item_without_equals (p name : string) (its : list string)
    (now : datetime) w (item : string) :
  In item its -> Str.contains "=" item = false ->
  exists e,
    main_set p name its now w = (inl e, w)
    /\ (forall me, fst (MetaFile_init p (fs w)) = inr me ->
                   exists msg, e = ValueError msg).
Proof.
  intros Hin Hc. rewrite main_set_run.
  destruct (fst (MetaFile_init p (fs w))) as [e|me].
  - exists e. split; [reflexivity | discriminate].
  - destruct (dict_of_items_bad its item 0 [] Hin Hc) as [msg ->].
    exists (ValueError msg). split; [reflexivity|]. intros _ _. now exists msg.
Qed.

End MainMore.

(** ** [set], from the items to the record *)

Section SetMore.

Context {datetime : Type} {DT : DateTime datetime}.
Implicit Types (info : MetaInformation datetime) (me : MetaFile datetime).

Lemma dict_of_items_NoDup (its : list string) (i : nat) (d props : Dict.t string) :
  NoDup (Dict.keys d) ->
  dict_of_items i its d = inr props ->
  NoDup (Dict.keys props).
Proof.
  revert i d. induction its as [|x its IH]; intros i d Hd; cbn [dict_of_items].
  - now intros [= <-].
  - destruct (Str.split1 "=" x) as [|a [|b [|c l]]]; try discriminate.
    apply IH. rewrite keys_set. now apply note_keeps_NoDup.
Qed.

Lemma dict_of_items_app (a b : list string) (i : nat) (d : Dict.t string) :
  dict_of_items i (a ++ b) d
  = match dict_of_items i a d with
    | inl e => inl e
    | inr d' => dict_of_items (i + List.length a) b d'
    end.
Proof.
  revert i d. induction a as [|x a IH]; intros i d; cbn [dict_of_items List.app].
  - now rewrite Nat.add_0_r.
  - destruct (Str.split1 "=" x) as [|k [|v [|c l]]]; try reflexivity.
    rewrite IH. cbn [List.length]. now rewrite Nat.add_succ_r.
Qed.

Lemma dict_of_items_keeps (its : list string) (i : nat) (d props : Dict.t string)
    (key : string) :
  (forall item v, In item its -> Str.split1 "=" item <> [key; v]) ->
  dict_of_items i its d = inr props ->
  Dict.get key props = Dict.get key d.
Proof.
  revert i d. induction its as [|x its IH]; intros i d Hother; cbn [dict_of_items].
  - now intros [= <-].
  - destruct (Str.split1 "=" x) as [|k [|v [|c l]]] eqn:E; try discriminate.
    intros H. rewrite (IH _ _ (fun item v' Hin => Hother item v' (or_intror Hin)) H).
    apply DictFacts.get_set_other. intros ->.
    apply (Hother x v); [now left | exact E].
Qed.

(** X13: the items of [set] become a dictionary: no key twice, and for
    a key given more than once the value of its last item. *)
Theorem items_give_a_dictionary (its : list string) (props : Dict.t string) :
  dict_of_items 0 its [] = inr props ->
  NoDup (Dict.keys props)
  /\ forall pre post key v,
       its = (pre ++ (key ++ "=" ++ v)%string :: post)%list ->
       Str.contains "=" key = false ->
       (forall item v', In item post -> Str.split1 "=" item <> [key; v']) ->
       Dict.get key props = Some v.
Proof.
  intros H. split.
  - apply (dict_of_items_NoDup its 0 [] props); [constructor | exact H].
  - intros pre post key v -> Hk Hpost.
    rewrite dict_of_items_app in H.
    destruct (dict_of_items 0 pre []) as [e|d1]; [discriminate|].
    cbn [dict_of_items] in H.
    change (key ++ "=" ++ v) with (key ++ String "=" v) in H.
    rewrite (StrFacts.split1_first _ _ _ Hk) in H.
    rewrite (dict_of_items_keeps _ _ _ _ key Hpost H).
    apply DictFacts.get_set_same.
Qed.

(** X14: [set] then [get].  On a record that loads and is absent,
    empty or ends in a line feed, let [set] return for items that make
    a well-formed batch with the object name and the time of the call.
    It has printed nothing, and a [get] of that object for a key among
    the items then prints the [DatedValue] with the value given and
    that time. *)
Theorem set_then_get (p name : string) (its : list string) (now : datetime)
    (fs0 : FS) (out : list (pyobj datetime)) me (props : Dict.t string)
    (w1 : World datetime) :
  MetaFile_init p fs0 = (inr me, fs0) ->
  (forall c r w, fs0 p = Regular c r w -> newline_terminated c = true) ->
  dict_of_items 0 its [] = inr props ->
  well_formed {| filename := name; time := now; properties := props |} ->
  main_set p name its now {| fs := fs0; stdout := out |} = (inr tt, w1) ->
  stdout w1 = out
  /\ forall key v default out',
       Dict.get key props = Some v ->
       main_get p name [key] default {| fs := fs w1; stdout := out' |}
       = (inr tt,
          {| fs := fs w1;
             stdout :=
               (out' ++ [PDatedValue {| value := v; assigned := now |}])%list |}).
Proof.
  intros Hi Hnl Hd Hwf Hs.
  rewrite main_set_run in Hs. cbn [fs] in Hs. rewrite Hi, Hd in Hs.
  cbn [fst] in Hs. unfold call in Hs. cbn [fs stdout] in Hs.
  destruct (write _) as [r [me1 fs1]] eqn:Hw.
  injection Hs as -> <-. cbn [snd stdout fs].
  split; [reflexivity|].
  intros key v default out' Hv.
  destruct (reload_general p fs0 fs1 me me1
              [{| filename := name; time := now; properties := props |}]
              Hi Hnl) as (me2 & Hi2 & Hd2).
  { now constructor. }
  { exact Hw. }
  rewrite main_get_run. cbn [fs stdout]. rewrite Hi2. cbn [fst map].
  rewrite get_entry, Hd2. cbn [add_all fold_left add_information data].
  change name with (filename {| filename := name; time := now; properties := props |}) at 1.
  rewrite entry_merge_hit with (v := v).
  - reflexivity.
  - cbn [properties].
    apply (dict_of_items_NoDup its 0 [] props); [constructor | exact Hd].
  - exact Hv.
Qed.

End SetMore.

(** ** The record location *)

Section LocationMore.

Variable resolve : string -> list string.
Variable is_dir : list string -> bool.

(** X15: where the record is.  Its last component is always
    [.annovate]; for a directory it lies in the directory, and for
    anything else directly inside that directory it is the same path:
    a directory and the files in it share one record. *)
Theorem directory_and_its_files_share_a_record (dir_arg file_arg : string)
    (dir : list string) (name : string) :
  resolve dir_arg = dir ->
  is_dir dir = true ->
  resolve file_arg = child dir name ->
  is_dir (child dir name) = false ->
  derive_meta_file_path resolve is_dir dir_arg = child dir META_FILE_NAME
  /\ derive_meta_file_path resolve is_dir file_arg
     = derive_meta_file_path resolve is_dir dir_arg
  /\ forall arg,
       last (derive_meta_file_path resolve is_dir arg) "" = META_FILE_NAME.
Proof.
  intros Hd Hdir Hf Hfile. unfold derive_meta_file_path.
  rewrite Hd, Hf, Hdir, Hfile. unfold parent, child.
  rewrite removelast_last. repeat split.
  intros arg. destruct (is_dir (resolve arg)); apply last_last.
Qed.

End LocationMore.

(** ** The further statements at work on sample records *)

Module MoreRuns.

Import Naive Sample MoreSamples.

Lemma write_appends_pending_witness :
  after_described annovate_path
  = Regular (record_text ++ render [described]) true true.
Proof.
  destruct (write_appends_pending with_described (flushed with_described)
              (with_file record_text) after_described eq_refl)
    as (_ & _ & _ & H & _).
  exact (H record_text true true eq_refl).
Defined.

Lemma write_again_is_idle_witness :
  write (flushed with_described, after_described)
  = (inr tt, (flushed with_described, after_described)).
Proof.
  apply (write_again_is_idle with_described (flushed with_described)
           (with_file record_text) after_described).
  reflexivity.
Defined.

Lemma get_after_add_witness :
  get "plot.png" "infra_correction" (add_information early loaded)
  = Some {| value := "8.2"; assigned := noon |}
  /\ get "results.csv" "description" (add_information early loaded)
     = get "results.csv" "description" loaded.
Proof.
  split.
  - apply (get_after_add early loaded "plot.png" "infra_correction").
    constructor; [intros []|constructor].
  - apply (get_after_add early loaded "results.csv" "description").
    constructor; [intros []|constructor].
Defined.

Lemma loaded_store_is_well_keyed_witness :
  well_keyed (data (add_all [late; bare] loaded)).
Proof.
  apply (loaded_store_is_well_keyed annovate_path (with_file record_text)
           (with_file record_text) loaded [late; bare]).
  reflexivity.
Defined.

Lemma adds_only_extend_witness :
  exists dv',
    get "results.csv" "description" (add_all [bare; early] loaded) = Some dv'.
Proof.
  apply (proj2 (adds_only_extend [bare; early] loaded)
           "results.csv" "description"
           {| value := "Cleaned up data"; assigned := noon |}).
  reflexivity.
Defined.

Lemma malformed_header_is_fatal_witness :
  exists msg,
    MetaFile_init (datetime := datetime) annovate_path (with_file bad_header_text)
    = (inl (ValueError msg), with_file bad_header_text).
Proof.
  apply (malformed_header_is_fatal annovate_path (with_file bad_header_text)
           bad_header_text true ("@results.csv@yesterday" ++ NL)).
  - reflexivity.
  - vm_compute. right. right. left. reflexivity.
  - reflexivity.
  - right. exists "results.csv", "yesterday". split; reflexivity.
Defined.

Lemma at_sign_in_name_breaks_record_witness :
  exists fs1 msg,
    write (with_at_name, with_file record_text)
    = (inr tt, (flushed with_at_name, fs1))
    /\ MetaFile_init annovate_path fs1 = (inl (ValueError msg), fs1).
Proof.
  apply (at_sign_in_name_breaks_record with_at_name (with_file record_text)
           record_text at_name); reflexivity.
Defined.

Lemma final_newline_is_optional_witness :
  fst (MetaFile_init (datetime := datetime) annovate_path
         (with_file (unterminated_text ++ NL)))
  = fst (MetaFile_init annovate_path (with_file unterminated_text)).
Proof.
  apply (final_newline_is_optional annovate_path (with_file unterminated_text)
           (with_file (unterminated_text ++ NL)) unterminated_text true true).
  - discriminate.
  - reflexivity.
  - reflexivity.
  - reflexivity.
Defined.

Lemma reload_after_flush_of_several_witness :
  exists me2,
    MetaFile_init annovate_path after_two_more = (inr me2, after_two_more)
    /\ data me2 = data with_two_more.
Proof.
  apply (reload_after_flush_of_several annovate_path (with_file record_text)
           after_two_more loaded (flushed with_two_more) [described; bare]).
  - reflexivity.
  - intros c r w H. vm_compute in H. injection H as <- _ _. reflexivity.
  - repeat constructor; vm_compute; reflexivity.
  - reflexivity.
Defined.

Lemma only_set_writes_witness :
  fs (world (snd (main annovate_path "plot.png" noon frob (quiet record_text))))
  = with_file record_text
  /\ main annovate_path "plot.png" noon frob (quiet record_text)
     = (inr (SystemExit 2),
        {| world := before_set;
           stderr := ["Unsupported action: frob" ++ NL] |}).
Proof.
  destruct (only_set_writes annovate_path "plot.png" noon frob (quiet record_text))
    as [H1 H2].
  - discriminate.
  - split; [exact H1|]. apply H2; discriminate.
Defined.

Lemma load_failure_stops_main_witness :
  main annovate_path "plot.png" noon list_all (quiet orphan_text)
  = (inl (ValueError "Meta file is not starting with a @"), quiet orphan_text).
Proof.
  apply (load_failure_stops_main annovate_path "plot.png" noon list_all
           (quiet orphan_text) (ValueError "Meta file is not starting with a @")).
  - reflexivity.
  - right. right. reflexivity.
Defined.

Lemma set_rejects_item_without_equals_witness :
  exists e,
    main_set annovate_path "plot.png" ["description=x"; "oops"] noon before_set
    = (inl e, before_set)
    /\ (forall me, fst (MetaFile_init annovate_path (fs before_set)) = inr me ->
                   exists msg, e = ValueError msg).
Proof.
  apply (set_rejects_item_without_equals annovate_path "plot.png"
           ["description=x"; "oops"] noon before_set "oops").
  - right. left. reflexivity.
  - reflexivity.
Defined.

Lemma items_give_a_dictionary_witness :
  NoDup (Dict.keys set_properties)
  /\ Dict.get "description" set_properties = Some "Field notes".
Proof.
  destruct (items_give_a_dictionary set_items set_properties eq_refl) as [H1 H2].
  split; [exact H1|].
  apply (H2 ["description=draft"; "origin=./run --alpha=8.2"] []
            "description" "Field notes").
  - reflexivity.
  - reflexivity.
  - intros item v' [].
Defined.

Lemma set_then_get_witness :
  stdout after_set = []
  /\ main_get annovate_path "notes.txt" ["origin"] "-"
       {| fs := fs after_set; stdout := [] |}
     = (inr tt,
        {| fs := fs after_set;
           stdout := [PDatedValue {| value := "./run --alpha=8.2";
                                     assigned := evening |}] |}).
Proof.
  destruct (set_then_get annovate_path "notes.txt" set_items evening
              (with_file record_text) [] loaded set_properties after_set)
    as [H1 H2].
  - reflexivity.
  - intros c r w H. vm_compute in H. injection H as <- _ _. reflexivity.
  - reflexivity.
  - repeat split; vm_compute; reflexivity.
  - reflexivity.
  - split; [exact H1|].
    apply (H2 "origin" "./run --alpha=8.2" "-" []). reflexivity.
Defined.

Lemma directory_and_its_files_share_a_record_witness :
  derive_meta_file_path sample_resolve sample_is_dir "."
  = ["home"; "data"; ".annovate"]
  /\ derive_meta_file_path sample_resolve sample_is_dir "plot.png"
     = derive_meta_file_path sample_resolve sample_is_dir ".".
Proof.
  destruct (directory_and_its_files_share_a_record sample_resolve sample_is_dir
              "." "plot.png" ["home"; "data"] "plot.png")
    as (H1 & H2 & _); try reflexivity.
  split; [exact H1 | exact H2].
Defined.

End MoreRuns.
